(** * Time-slot aggregation and pending-entry promotion

    A shallow embedding of the two pages of the betting dashboard: the admin
    panel (slot boundaries, number space, summaries, promotion of pending
    entries, submission) and the read-only results viewer (slot keys,
    grouping, least-bet ranking).

    Modelling conventions.
    - A JavaScript [Date] is the integer number of milliseconds since the
      epoch ([Z]).  Local time is UTC shifted by a fixed offset [tzOffset]
      of the host; daylight-saving transitions are not modelled.
    - Amounts are whole currency units ([Z]); the IEEE rounding of fractional
      amounts is not modelled.  [Infinity] sentinels are the constructor
      [Inf] of [jsnum].
    - The Firestore collection is an append-only list of documents; a query
      is a filter over it, and reads and writes always succeed.
    - A JS [Map] is an association list in insertion order; a JS [Set] of
      strings is a [gset string]; a JS object used as a dictionary is a
      [gmap]. *)

From Stdlib Require Import ZArith List Ascii String DecimalString.
From Stdlib Require Import Sorting.Sorted Sorting.Permutation Lia.
From stdpp Require Import gmap strings list.
Import ListNotations.

Local Open Scope string_scope.
Local Open Scope list_scope.
Local Open Scope Z_scope.

(** ** Host environment *)

(** What the browser supplies and the source takes for granted: the offset of
    local time from UTC in milliseconds, the instant [new Date(dateStr)]
    denotes, and [toLocaleTimeString([], {hour: '2-digit', minute: '2-digit'})]. *)
Class Host := {
  tzOffset : Z;
  parseDate : string -> Z;
  toLocaleTimeString : Z -> string
}.

(** ** ECMAScript date arithmetic, for a fixed offset *)

Module JsDate.
Section Local.
Context `{Host}.

Definition msPerSecond : Z := 1000.
Definition msPerMinute : Z := 60000.
Definition msPerHour : Z := 3600000.
Definition msPerDay : Z := 86400000.

Definition LocalTime (t : Z) : Z := t + tzOffset.
Definition UTC (t : Z) : Z := t - tzOffset.

Definition Day (t : Z) : Z := t / msPerDay.
Definition HourFromTime (t : Z) : Z := (t / msPerHour) mod 24.
Definition MinFromTime (t : Z) : Z := (t / msPerMinute) mod 60.
Definition SecFromTime (t : Z) : Z := (t / msPerSecond) mod 60.
Definition msFromTime (t : Z) : Z := t mod msPerSecond.

Definition MakeTime (hour min sec ms : Z) : Z :=
  hour * msPerHour + min * msPerMinute + sec * msPerSecond + ms.
Definition MakeDate (day time : Z) : Z := day * msPerDay + time.

Definition getHours (d : Z) : Z := HourFromTime (LocalTime d).
Definition getMinutes (d : Z) : Z := MinFromTime (LocalTime d).
Definition getSeconds (d : Z) : Z := SecFromTime (LocalTime d).
Definition getMilliseconds (d : Z) : Z := msFromTime (LocalTime d).

(** [d.setHours(h, m, s, ms)] *)
Definition setHours4 (d h m s ms : Z) : Z :=
  UTC (MakeDate (Day (LocalTime d)) (MakeTime h m s ms)).

(** [d.setMinutes(m)] *)
Definition setMinutes (d m : Z) : Z :=
  let t := LocalTime d in
  UTC (MakeDate (Day t) (MakeTime (HourFromTime t) m (SecFromTime t) (msFromTime t))).

(** [d.setMinutes(m, s, ms)] *)
Definition setMinutes3 (d m s ms : Z) : Z :=
  let t := LocalTime d in
  UTC (MakeDate (Day t) (MakeTime (HourFromTime t) m s ms)).

(** [d.setSeconds(s)] *)
Definition setSeconds (d s : Z) : Z :=
  let t := LocalTime d in
  UTC (MakeDate (Day t) (MakeTime (HourFromTime t) (MinFromTime t) s (msFromTime t))).

(** [d.setMilliseconds(ms)] *)
Definition setMilliseconds (d ms : Z) : Z :=
  let t := LocalTime d in
  UTC (MakeDate (Day t) (MakeTime (HourFromTime t) (MinFromTime t) (SecFromTime t) ms)).

End Local.
End JsDate.

(** ** Array.prototype.sort *)

(** The comparator's result is consumed through its sign only.  The sort is
    stable: an element is placed before the first later element it does not
    exceed. *)
Fixpoint insertBy {A : Type} (cmp : A -> A -> Z) (x : A) (l : list A) : list A :=
  match l with
  | [] => [x]
  | y :: ys => if cmp x y <=? 0 then x :: y :: ys else y :: insertBy cmp x ys
  end.

Definition sortBy {A : Type} (cmp : A -> A -> Z) (l : list A) : list A :=
  fold_right (insertBy cmp) [] l.

(** ** Numbers *)

(** The values a sum of whole amounts can take, and the [Infinity] sentinel. *)
Inductive jsnum := Fin (z : Z) | Inf.

Definition jsnum_eqb (a b : jsnum) : bool :=
  match a, b with
  | Fin x, Fin y => x =? y
  | Inf, Inf => true
  | _, _ => false
  end.

(** [Math.min] *)
Definition Math_min (a b : jsnum) : jsnum :=
  match a, b with
  | Fin x, Fin y => Fin (Z.min x y)
  | Fin x, Inf => Fin x
  | Inf, b => b
  end.

(** The sign of [a - b] for [a !== b]; [0] when they are equal. *)
Definition jsnum_sub_sign (a b : jsnum) : Z :=
  match a, b with
  | Fin x, Fin y => x - y
  | Fin _, Inf => -1
  | Inf, Fin _ => 1
  | Inf, Inf => 0
  end.

(** [String(n)] and [n.toString()] for a non-negative integer. *)
Definition String_ (n : nat) : string := NilZero.string_of_uint (Nat.to_uint n).

(** ** Number-space generator *)

Inductive BetType := jodi | single.

Definition BetType_eqb (a b : BetType) : bool :=
  match a, b with
  | jodi, jodi | single, single => true
  | _, _ => false
  end.

(** [Array.from({ length: n }, (_, i) => f i)] *)
Definition Array_from {A : Type} (n : nat) (f : nat -> A) : list A :=
  List.map f (seq 0 n).

Definition generateAllNumbers (type : BetType) : list string :=
  match type with
  | single => Array_from 9 (fun i => String_ (i + 1))
  | jodi =>
      Array_from 99 (fun i =>
        let num := (i + 1)%nat in
        if (num <? 10)%nat then String.append "0" (String_ num) else String_ num)
  end.

(** ** The document store *)

(** A document of the [bets] collection.  [pending] and [processedAt] are
    optional fields; [userId] is optional and may be the empty string. *)
Record EntryData := {
  number : string;
  amount : Z;
  userId : option string;
  createdAt : Z;
  date : string;
  type : BetType;
  pending : option bool;
  processedAt : option Z
}.

Record Doc := { id : string; data : EntryData }.

Definition Store := list Doc.

(** The gateway names a new document; the model names the k-th document of
    the collection after its index. *)
Definition autoId (st : Store) : string :=
  String.append "doc" (String_ (length st)).

(** [addDoc(collection(db, 'bets'), d)] *)
Definition addDoc (st : Store) (d : EntryData) : Store :=
  st ++ [ {| id := autoId st; data := d |} ].

(** [where(field, '==', true)] and [where(field, '==', false)] on an optional
    boolean field. *)
Definition fieldIs (b : bool) (o : option bool) : bool :=
  match o with
  | Some b' => Bool.eqb b b'
  | None => false
  end.

(** [x || y] on an optional string: the empty string is falsy. *)
Definition orElse (x : option string) (y : string) : string :=
  match x with
  | Some s => if String.eqb s EmptyString then y else s
  | None => y
  end.

(** ** JS Map with string keys, in insertion order *)

Section JsMap.
Context {V : Type}.

Definition Map_has (m : list (string * V)) (k : string) : bool :=
  existsb (fun p => String.eqb (fst p) k) m.

Fixpoint Map_get (m : list (string * V)) (k : string) : option V :=
  match m with
  | [] => None
  | (k', v) :: r => if String.eqb k' k then Some v else Map_get r k
  end.

Fixpoint Map_set (m : list (string * V)) (k : string) (v : V) : list (string * V) :=
  match m with
  | [] => [(k, v)]
  | (k', v') :: r =>
      if String.eqb k' k then (k', v) :: r else (k', v') :: Map_set r k v
  end.

End JsMap.

(** ** Strings as numbers *)

(** The outcome of [Number(s)] on a string, inside the whole-number model. *)
Inductive StrNum := NaN_ | Int (z : Z).

Definition isDigit (c : ascii) : bool :=
  let n := nat_of_ascii c in ((48 <=? n) && (n <=? 57))%nat.

Definition isHexDigit (c : ascii) : bool :=
  let n := nat_of_ascii c in
  isDigit c || ((65 <=? n) && (n <=? 70))%nat || ((97 <=? n) && (n <=? 102))%nat.

(** White space, as far as it is ASCII. *)
Definition isWhiteSpace (c : ascii) : bool :=
  let n := nat_of_ascii c in
  ((n =? 9) || (n =? 10) || (n =? 11) || (n =? 12) || (n =? 13) || (n =? 32))%nat.

Definition isSign (c : ascii) : bool :=
  Ascii.eqb c "+"%char || Ascii.eqb c "-"%char.

Fixpoint dropWhile (p : ascii -> bool) (l : list ascii) : list ascii :=
  match l with
  | [] => []
  | c :: r => if p c then dropWhile p r else l
  end.

Fixpoint takeWhile (p : ascii -> bool) (l : list ascii) : list ascii :=
  match l with
  | [] => []
  | c :: r => if p c then c :: takeWhile p r else []
  end.

Definition trim (l : list ascii) : list ascii :=
  rev (dropWhile isWhiteSpace (rev (dropWhile isWhiteSpace l))).

Definition digitValue (c : ascii) : Z :=
  let n := Z.of_nat (nat_of_ascii c) in
  if isDigit c then n - 48
  else if (n <=? 70) then n - 55 else n - 87.

Definition digitsValue (radix : Z) (ds : list ascii) : Z :=
  fold_left (fun acc c => acc * radix + digitValue c) ds 0.

Definition nonEmpty {A : Type} (l : list A) : bool :=
  match l with [] => false | _ => true end.

(** The optional exponent part of a decimal literal. *)
Definition isExponentOpt (l : list ascii) : bool :=
  match l with
  | [] => true
  | c :: r =>
      (Ascii.eqb c "e"%char || Ascii.eqb c "E"%char)
      && (let r' := match r with
                    | s :: r'' => if isSign s then r'' else r
                    | [] => r
                    end in
          nonEmpty r' && forallb isDigit r')
  end.

(** StrUnsignedDecimalLiteral *)
Definition isUnsignedDecimal (l : list ascii) : bool :=
  if String.eqb (string_of_list_ascii l) "Infinity" then true
  else
    let d1 := takeWhile isDigit l in
    match dropWhile isDigit l with
    | [] => nonEmpty d1
    | c :: r =>
        if Ascii.eqb c "."%char
        then (nonEmpty d1 || nonEmpty (takeWhile isDigit r))
             && isExponentOpt (dropWhile isDigit r)
        else nonEmpty d1 && isExponentOpt (c :: r)
    end.

(** NonDecimalIntegerLiteral: [0x], [0o] and [0b] prefixes, unsigned. *)
Definition isNonDecimal (l : list ascii) : bool :=
  match l with
  | z :: p :: r =>
      Ascii.eqb z "0"%char && nonEmpty r
      && (((Ascii.eqb p "x"%char || Ascii.eqb p "X"%char) && forallb isHexDigit r)
          || ((Ascii.eqb p "o"%char || Ascii.eqb p "O"%char)
              && forallb (fun c => isDigit c && (nat_of_ascii c <=? 55)%nat) r)
          || ((Ascii.eqb p "b"%char || Ascii.eqb p "B"%char)
              && forallb (fun c => isDigit c && (nat_of_ascii c <=? 49)%nat) r))
  | _ => false
  end.

(** StrNumericLiteral *)
Definition isStrNumericLiteral (l : list ascii) : bool :=
  isNonDecimal l
  || match l with
     | c :: r => if isSign c then isUnsignedDecimal r else isUnsignedDecimal l
     | [] => false
     end.

(** An optionally signed run of decimal digits, and its value. *)
Definition signedInteger (l : list ascii) : option Z :=
  let body := match l with
              | c :: r => if isSign c then r else l
              | [] => l
              end in
  if nonEmpty body && forallb isDigit body then
    match l with
    | c :: _ => if Ascii.eqb c "-"%char
                then Some (- digitsValue 10 body)
                else Some (digitsValue 10 body)
    | [] => None
    end
  else None.

(** [Number(s)].  [None] is a numeric literal whose value is not a whole
    number a double holds exactly (a fraction, an exponent, a radix prefix,
    [Infinity], or a magnitude above 2^53): it lies outside the model of
    amounts. *)
Definition Number_ (s : string) : option StrNum :=
  match trim (list_ascii_of_string s) with
  | [] => Some (Int 0)
  | l =>
      if isStrNumericLiteral l then
        match signedInteger l with
        | Some z => if Z.abs z <=? 2 ^ 53 then Some (Int z) else None
        | None => None
        end
      else Some NaN_
  end.

(** [parseInt(s)]; [None] is [NaN]. *)
Definition parseInt (s : string) : option Z :=
  let l := dropWhile isWhiteSpace (list_ascii_of_string s) in
  let neg := match l with c :: _ => Ascii.eqb c "-"%char | [] => false end in
  let l := match l with c :: r => if isSign c then r else l | [] => l end in
  let (radix, l) :=
    match l with
    | z :: x :: r =>
        if Ascii.eqb z "0"%char && (Ascii.eqb x "x"%char || Ascii.eqb x "X"%char)
        then (16, r) else (10, l)
    | _ => (10, l)
    end in
  let ds := takeWhile (if radix =? 16 then isHexDigit else isDigit) l in
  if nonEmpty ds
  then Some (if neg then - digitsValue radix ds else digitsValue radix ds)
  else None.

(** [s.padStart(w, c)] *)
Definition padStart (s : string) (w : nat) (c : ascii) : string :=
  String.append
    (string_of_list_ascii (repeat c (w - String.length s)))
    s.

(** The outcomes of a submission, and the tests it runs on the number. *)
Inductive SubmitResult :=
| ValidationFailed (message : string)
| Saved.

(** [/^[1-9]$/.test(s)] *)
Definition test_1_9 (s : string) : bool :=
  match s with
  | String c EmptyString => isDigit c && negb (Ascii.eqb c "0"%char)
  | _ => false
  end.

(** [/^[0-9]{2}$/.test(s)] *)
Definition test_2digits (s : string) : bool :=
  match s with
  | String a (String b EmptyString) => isDigit a && isDigit b
  | _ => false
  end.

(** [Number(s) < 1 || Number(s) > 99]; comparisons with [NaN] are false. *)
Definition outside_1_99 (v : option StrNum) : option bool :=
  match v with
  | Some (Int z) => Some ((z <? 1) || (99 <? z))
  | Some NaN_ => Some false
  | None => None
  end.

(** ** Admin panel *)

Module SummaryItem.
Record t := mk {
  number : string;
  total : Z;
  userCount : nat;
  minAmount : Z
}.
End SummaryItem.

(** The value type of [numberMap]. *)
Module Info.
Record t := mk {
  total : Z;
  users : gset string;
  minAmount : jsnum
}.
Definition fresh : t := {| total := 0; users := ∅; minAmount := Inf |}.
End Info.

Module SlotBoundary.
Record t := mk { start : Z; end_ : Z; formatted : string }.
End SlotBoundary.

Module TimeSlot.
Record t := mk {
  startTime : Z;
  endTime : Z;
  formattedTimeRange : string;
  entries : list SummaryItem.t;
  isCurrent : option bool
}.
End TimeSlot.

(** The value type of [numberMap] in [fetchCurrentSlotData], and the items it
    yields: a [SummaryItem] whose optional [minAmount] is left out. *)
Module CurrentInfo.
Record t := mk {
  total : Z;
  users : gset string
}.
Definition fresh : t := {| total := 0; users := ∅ |}.
End CurrentInfo.

Module CurrentItem.
Record t := mk {
  number : string;
  total : Z;
  userCount : nat
}.
End CurrentItem.

Module Admin.
Section WithHost.
Context `{Host}.
Import JsDate.

Definition getTimeSlotBoundaries (dateStr : string) : list SlotBoundary.t :=
  let baseDate := setHours4 (parseDate dateStr) 0 0 0 0 in
  let slots :=
    flat_map (fun hour =>
      List.map (fun minute =>
        let start := setHours4 baseDate hour minute 0 0 in
        let end_ := setMinutes start (minute + 15) in
        let formattedStart := toLocaleTimeString start in
        let formattedEnd := toLocaleTimeString end_ in
        let formatted :=
          String.append formattedStart (String.append " - " formattedEnd) in
        SlotBoundary.mk start end_ formatted)
      [0; 15; 30; 45])
    (List.map Z.of_nat (seq 0 24)) in
  sortBy (fun a b => SlotBoundary.start b - SlotBoundary.start a) slots.

Definition getCurrentTimeSlot (now : Z) : TimeSlot.t :=
  let minutes := getMinutes now in
  let roundedMinutes := (minutes / 15) * 15 in
  let slotStart := setMinutes3 now roundedMinutes 0 0 in
  let slotEnd := setMinutes3 now (roundedMinutes + 15) 0 0 in
  TimeSlot.mk slotStart slotEnd
    (String.append (toLocaleTimeString slotStart)
       (String.append " - " (toLocaleTimeString slotEnd)))
    [] (Some true).

(** The copy written by the promotion loop:
    [{ ...doc.data(), pending: false, processedAt: Timestamp.now() }]. *)
Definition settledCopy (d : EntryData) (now : Z) : EntryData :=
  {| number := number d; amount := amount d; userId := userId d;
     createdAt := createdAt d; date := date d; type := type d;
     pending := Some false; processedAt := Some now |}.

(** The query of [processPendingEntries]. *)
Definition pendingInSlot (date_ : string) (type_ : BetType)
    (previousSlotStart previousSlotEnd : Z) (doc : Doc) : bool :=
  String.eqb (date (data doc)) date_
  && BetType_eqb (type (data doc)) type_
  && (previousSlotStart <=? createdAt (data doc))
  && (createdAt (data doc) <? previousSlotEnd)
  && fieldIs true (pending (data doc)).

(** The [for (const doc of batch)] loop; [clock i] is what [Timestamp.now()]
    reads in iteration [i]. *)
Fixpoint promoteBatch (clock : nat -> Z) (i : nat) (batch : list Doc) (st : Store) : Store :=
  match batch with
  | [] => st
  | doc :: rest =>
      promoteBatch clock (S i) rest (addDoc st (settledCopy (data doc) (clock i)))
  end.

(** [processPendingEntries], on the component state [currentTimeSlot],
    [date], [type] and the collection; the refreshes that follow the loop
    only read.  The snapshot lists the matching documents in the order the
    collection holds them, and every write succeeds. *)
Definition processPendingEntries (currentTimeSlot : option TimeSlot.t)
    (date_ : string) (type_ : BetType) (clock : nat -> Z) (st : Store) : Store :=
  match currentTimeSlot with
  | None => st
  | Some slot =>
      let previousSlotStart :=
        setMinutes (TimeSlot.startTime slot)
                   (getMinutes (TimeSlot.startTime slot) - 15) in
      let previousSlotEnd := TimeSlot.startTime slot in
      let batch :=
        List.filter (pendingInSlot date_ type_ previousSlotStart previousSlotEnd) st in
      promoteBatch clock 0 batch st
  end.

(** The body of [snapshot.forEach] in [fetchSummary] and of
    [slotEntries.forEach] in [fetchTimeSlotData]; the two are the same text. *)
Definition addEntry (numberMap : list (string * Info.t)) (doc : Doc)
    : list (string * Info.t) :=
  let userId_ := orElse (userId (data doc)) (id doc) in
  let key := number (data doc) in
  let numberMap :=
    if negb (Map_has numberMap key) then Map_set numberMap key Info.fresh
    else numberMap in
  match Map_get numberMap key with
  | Some entry =>
      Map_set numberMap key
        {| Info.total := Info.total entry + amount (data doc);
           Info.users := {[ userId_ ]} ∪ Info.users entry;
           Info.minAmount :=
             if 0 <? amount (data doc)
             then Math_min (Info.minAmount entry) (Fin (amount (data doc)))
             else Info.minAmount entry |}
  | None => numberMap
  end.

(** [numberMap] after seeding with every possible number. *)
Definition seedMap (fetchType : BetType) : list (string * Info.t) :=
  fold_left (fun m num => Map_set m num Info.fresh) (generateAllNumbers fetchType) [].

Definition toSummaryItem (p : string * Info.t) : SummaryItem.t :=
  let (number_, info) := p in
  {| SummaryItem.number := number_;
     SummaryItem.total := Info.total info;
     SummaryItem.userCount := size (Info.users info);
     SummaryItem.minAmount :=
       match Info.minAmount info with Fin a => a | Inf => 0 end |}.

(** Seeding, folding and [Array.from(numberMap.entries()).map(...)]. *)
Definition summarize (fetchType : BetType) (docs : list Doc) : list SummaryItem.t :=
  List.map toSummaryItem (fold_left addEntry docs (seedMap fetchType)).

(** The query of [fetchSummary] and [fetchTimeSlotData]. *)
Definition settledOn (fetchDate : string) (fetchType : BetType) (doc : Doc) : bool :=
  String.eqb (date (data doc)) fetchDate
  && BetType_eqb (type (data doc)) fetchType
  && fieldIs false (pending (data doc)).

Definition fetchSummary (fetchDate : string) (fetchType : BetType) (st : Store)
    : list SummaryItem.t :=
  summarize fetchType (List.filter (settledOn fetchDate fetchType) st).

Definition fetchTimeSlotData (fetchDate : string) (fetchType : BetType) (st : Store)
    : list TimeSlot.t :=
  let slots := getTimeSlotBoundaries fetchDate in
  let allEntries :=
    sortBy (fun a b => createdAt (data a) - createdAt (data b))
           (List.filter (settledOn fetchDate fetchType) st) in
  flat_map (fun slot =>
    let slotEntries :=
      List.filter (fun entry =>
        (SlotBoundary.start slot <=? createdAt (data entry))
        && (createdAt (data entry) <? SlotBoundary.end_ slot)) allEntries in
    let summaryItems := summarize fetchType slotEntries in
    if (0 <? length slotEntries)%nat
    then [ TimeSlot.mk (SlotBoundary.start slot) (SlotBoundary.end_ slot)
             (SlotBoundary.formatted slot) summaryItems None ]
    else []) slots.

(** [handleSubmit] on the form state [number], [amount], [type], [date], the
    reading [now] of [Timestamp.now()] and the collection.  The result is
    [None] when the amount is a literal outside the whole-number model. *)
Definition handleSubmit (number_ amount_ : string) (type_ : BetType)
    (date_ : string) (now : Z) (st : Store) : option (SubmitResult * Store) :=
  if BetType_eqb type_ single && negb (test_1_9 number_) then
    Some (ValidationFailed "Enter a single number from 1 to 9 without leading zero", st)
  else
    match (if BetType_eqb type_ jodi
           then if negb (test_2digits number_) then Some true
                else outside_1_99 (Number_ number_)
           else Some false) with
    | None => None
    | Some true =>
        Some (ValidationFailed "Enter a jodi number from 01 to 99 with leading zero if < 10", st)
    | Some false =>
        if String.eqb amount_ EmptyString then Some (ValidationFailed "Enter a valid amount", st)
        else
          match Number_ amount_ with
          | None => None
          | Some NaN_ => Some (ValidationFailed "Enter a valid amount", st)
          | Some (Int a) =>
              if a <=? 0 then Some (ValidationFailed "Enter a valid amount", st)
              else
                Some (Saved,
                      addDoc st
                        {| number := number_; amount := a; userId := None;
                           createdAt := now; date := date_; type := type_;
                           pending := Some true; processedAt := None |})
          end
    end.


(** Filter active numbers - numbers with bets placed. *)
Definition getActiveNumbers (items : list SummaryItem.t) : list SummaryItem.t :=
  List.filter (fun item => 0 <? SummaryItem.total item) items.

(** The query of [fetchPendingEntries]. *)
Definition pendingOn (date_ : string) (type_ : BetType) (doc : Doc) : bool :=
  String.eqb (date (data doc)) date_
  && BetType_eqb (type (data doc)) type_
  && fieldIs true (pending (data doc)).

(** [fetchPendingEntries], on the form state [date] and [type]: the new value
    of [pendingEntries]. *)
Definition fetchPendingEntries (date_ : string) (type_ : BetType) (st : Store)
    : list Doc :=
  List.filter (pendingOn date_ type_) st.

(** The query of [fetchCurrentSlotData]; [today] is the date string
    [new Date().toISOString().split('T')[0]] reads. *)
Definition inCurrentSlot (today : string) (type_ : BetType) (slot : TimeSlot.t)
    (doc : Doc) : bool :=
  String.eqb (date (data doc)) today
  && BetType_eqb (type (data doc)) type_
  && (TimeSlot.startTime slot <=? createdAt (data doc))
  && (createdAt (data doc) <? TimeSlot.endTime slot).

(** The body of [allEntries.forEach] in [fetchCurrentSlotData]. *)
Definition addCurrentEntry (numberMap : list (string * CurrentInfo.t)) (entry : Doc)
    : list (string * CurrentInfo.t) :=
  let number_ := number (data entry) in
  let userId_ := orElse (userId (data entry)) (id entry) in
  let numberMap :=
    if negb (Map_has numberMap number_) then Map_set numberMap number_ CurrentInfo.fresh
    else numberMap in
  match Map_get numberMap number_ with
  | Some data_ =>
      Map_set numberMap number_
        {| CurrentInfo.total := CurrentInfo.total data_ + amount (data entry);
           CurrentInfo.users := {[ userId_ ]} ∪ CurrentInfo.users data_ |}
  | None => numberMap
  end.

(** [fetchCurrentSlotData]: the new value of [currentSlotSummary], and [None]
    when the function returns at once for want of a slot. *)
Definition fetchCurrentSlotData (slot : option TimeSlot.t) (today : string)
    (type_ : BetType) (st : Store) : option (list CurrentItem.t) :=
  match slot with
  | None => None
  | Some slot =>
      let allEntries := List.filter (inCurrentSlot today type_ slot) st in
      let numberMap :=
        fold_left (fun m num => Map_set m num CurrentInfo.fresh)
          (generateAllNumbers type_) [] in
      let numberMap := fold_left addCurrentEntry allEntries numberMap in
      Some (List.map
              (fun p : string * CurrentInfo.t =>
                 let (number_, info) := p in
                 {| CurrentItem.number := number_;
                    CurrentItem.total := CurrentInfo.total info;
                    CurrentItem.userCount := size (CurrentInfo.users info) |})
              numberMap)
  end.

(** The test of the effect on [currentTimeSlot] that starts a promotion:
    [minutes % 15 === 0 && seconds < 60], on the reading [now] of the clock.
    Both operands of [%] are non-negative. *)
Definition promotionDue (now : Z) : bool :=
  let minutes := getMinutes now in
  let seconds := getSeconds now in
  (Z.rem minutes 15 =? 0) && (seconds <? 60).

(** The effect on [currentTimeSlot]: a promotion when one is due. *)
Definition promotionEffect (currentTimeSlot : option TimeSlot.t) (now : Z)
    (date_ : string) (type_ : BetType) (clock : nat -> Z) (st : Store) : Store :=
  match currentTimeSlot with
  | None => st
  | Some _ =>
      if promotionDue now
      then processPendingEntries currentTimeSlot date_ type_ clock st
      else st
  end.

End WithHost.
End Admin.


(** ** Results viewer *)

Module Cell.
Record t := mk { amount : Z; users : gset string }.
End Cell.

Module AggregatedBet.
Record t := mk { number : string; amount : jsnum; userCount : jsnum }.
End AggregatedBet.

(** An element of [slot.entries]: for one number of the slot, the amount and
    the user count [fetchData] computed.  [id] and [userId] are optional
    fields of the interface; [fetchData] sets [id] on the raw rows only and
    copies neither into these per-number entries. *)
Module SlotEntry.
Record t := mk {
  number : string;
  amount : Z;
  userCount : Z;
  id : option string;
  userId : option string
}.
End SlotEntry.

Module Viewer.
Section WithHost.
Context `{Host}.
Import JsDate.

(** [Math.ceil(p / q)] for a positive [q]. *)
Definition ceilDiv (p q : Z) : Z := - ((- p) / q).

(** [getTimeSlotKey].  The ISO string it returns names an instant, and the
    callers only turn it back into that instant; the model returns the
    instant. *)
Definition getTimeSlotKey (date_ : Z) : Z :=
  let slotEnd := date_ in
  let minutes := getMinutes slotEnd in
  let roundedMinutes := ceilDiv (minutes + 1) 15 * 15 in
  let slotEnd := setMinutes slotEnd roundedMinutes in
  let slotEnd := setSeconds slotEnd 0 in
  let slotEnd := setMilliseconds slotEnd 0 in
  slotEnd.

(** The query of [fetchData]: two equality filters, newest first.  Every
    document of the model has a valid [createdAt], so the fallback of
    [rawData] to the current time never applies. *)
Definition queryBets (viewType : BetType) (dateStr : string) (st : Store) : list Doc :=
  sortBy (fun a b => createdAt (data b) - createdAt (data a))
    (List.filter (fun doc =>
       BetType_eqb (type (data doc)) viewType
       && String.eqb (date (data doc)) dateStr) st).

(** One round of [rawData.forEach]; [token] is the string the anonymous
    branch draws for this entry. *)
Definition groupEntry (now : Z) (groupedSlots : gmap Z (gmap string Cell.t))
    (entry : Doc) (token : string) : gmap Z (gmap string Cell.t) :=
  let slotKey := getTimeSlotKey (createdAt (data entry)) in
  let slotTime := slotKey in
  if slotTime <=? now then
    let slot := default ∅ (groupedSlots !! slotKey) in
    let cell := default (Cell.mk 0 ∅) (slot !! number (data entry)) in
    let user :=
      match userId (data entry) with
      | Some u => if String.eqb u EmptyString then token else u
      | None => token
      end in
    <[ slotKey :=
         <[ number (data entry) :=
              Cell.mk (Cell.amount cell + amount (data entry))
                      ({[ user ]} ∪ Cell.users cell) ]> slot ]> groupedSlots
  else groupedSlots.

(** [rawData.forEach(...)]; [anon i] is the string the anonymous branch draws
    for the entry at position [i]. *)
Definition groupEntries (now : Z) (anon : nat -> string) (rawData : list Doc)
    (groupedSlots : gmap Z (gmap string Cell.t))
    : gmap Z (gmap string Cell.t) :=
  fold_left
    (fun acc (ie : nat * Doc) => groupEntry now acc (snd ie) (anon (fst ie)))
    (combine (seq 0 (length rawData)) rawData)
    groupedSlots.

(** [groupedSlots] as [fetchData] builds it; [now] is [customTime || new Date()]. *)
Definition fetchData_groupedSlots (now : Z) (anon : nat -> string)
    (viewType : BetType) (dateStr : string) (st : Store)
    : gmap Z (gmap string Cell.t) :=
  groupEntries now anon (queryBets viewType dateStr st) ∅.

End WithHost.

(** One round of [slot.entries.forEach] in the table row of a slot; [token]
    is the string the template [`entry-...`] yields for this entry. *)
Definition renderEntry
    (maps : list (string * Z) * list (string * gset string))
    (entry : SlotEntry.t) (token : string)
    : list (string * Z) * list (string * gset string) :=
  let (numberAmountMap, numberUserMap) := maps in
  let number_ := SlotEntry.number entry in
  let (numberAmountMap, numberUserMap) :=
    if negb (Map_has numberAmountMap number_)
    then (Map_set numberAmountMap number_ 0, Map_set numberUserMap number_ ∅)
    else (numberAmountMap, numberUserMap) in
  let numberAmountMap :=
    Map_set numberAmountMap number_
      (default 0 (Map_get numberAmountMap number_) + SlotEntry.amount entry) in
  let userIdentifier := orElse (SlotEntry.userId entry) token in
  let numberUserMap :=
    Map_set numberUserMap number_
      ({[ userIdentifier ]} ∪ default ∅ (Map_get numberUserMap number_)) in
  (numberAmountMap, numberUserMap).

(** [aggregatedBets] as the row builds it from [slot.entries]. *)
Definition aggregateBets (token : nat -> string) (entries : list SlotEntry.t)
    : list AggregatedBet.t :=
  let (numberAmountMap, numberUserMap) :=
    fold_left
      (fun maps (ie : nat * SlotEntry.t) => renderEntry maps (snd ie) (token (fst ie)))
      (combine (seq 0 (length entries)) entries)
      ([], []) in
  List.map
    (fun p : string * Z =>
       let (number_, amount_) := p in
       let userCount := size (default ∅ (Map_get numberUserMap number_)) in
       AggregatedBet.mk number_ (Fin amount_) (Fin (Z.of_nat userCount)))
    numberAmountMap.

(** [aggregatedBets.find(bet => bet.number === num)] *)
Definition findBet (aggregatedBets : list AggregatedBet.t) (num : string)
    : option AggregatedBet.t :=
  List.find (fun bet => String.eqb (AggregatedBet.number bet) num) aggregatedBets.

Definition allNumbersWithBets (viewType : BetType)
    (aggregatedBets : list AggregatedBet.t) : list AggregatedBet.t :=
  let maxNumber := match viewType with single => 9%nat | jodi => 99%nat end in
  List.filter
    (fun item =>
       BetType_eqb viewType single
       || negb (String.eqb (AggregatedBet.number item) "00"))
    (Array_from (maxNumber + 1) (fun i =>
       let num := padStart (String_ i)
                    (match viewType with jodi => 2 | single => 1 end) "0" in
       match findBet aggregatedBets num with
       | Some existingBet => existingBet
       | None => AggregatedBet.mk num Inf Inf
       end)).

(** The comparator of the ranking.  A [NaN] difference counts as [0]. *)
Definition compareBets (a b : AggregatedBet.t) : Z :=
  if negb (jsnum_eqb (AggregatedBet.amount a) (AggregatedBet.amount b)) then
    jsnum_sub_sign (AggregatedBet.amount a) (AggregatedBet.amount b)
  else if negb (jsnum_eqb (AggregatedBet.userCount a) (AggregatedBet.userCount b)) then
    jsnum_sub_sign (AggregatedBet.userCount a) (AggregatedBet.userCount b)
  else
    match parseInt (AggregatedBet.number a), parseInt (AggregatedBet.number b) with
    | Some x, Some y => x - y
    | _, _ => 0
    end.

(** [l.slice(0, 3)] *)
Definition slice03 {A : Type} (l : list A) : list A := firstn 3 l.

(** [while (l.length < 3) l.push('-')] *)
Definition padDashes (l : list string) : list string :=
  l ++ repeat "-" (3 - length l).

Definition leastBetNumbers (viewType : BetType)
    (aggregatedBets : list AggregatedBet.t) : list string :=
  padDashes
    (List.map AggregatedBet.number
       (slice03
          (sortBy compareBets
             (List.filter
                (fun item => negb (jsnum_eqb (AggregatedBet.amount item) Inf))
                (allNumbersWithBets viewType aggregatedBets))))).

End Viewer.

(** ** A sample host *)

(** Days from 1970-01-01 to the civil date [y]-[m]-[d] (proleptic Gregorian). *)
Definition daysFromCivil (y m d : Z) : Z :=
  let y' := if m <=? 2 then y - 1 else y in
  let era := y' / 400 in
  let yoe := y' - era * 400 in
  let mp := (m + 9) mod 12 in
  let doy := (153 * mp + 2) / 5 + d - 1 in
  let doe := yoe * 365 + yoe / 4 - yoe / 100 + doy in
  era * 146097 + doe - 719468.

(** [YYYY-MM-DD] read as UTC midnight; anything else as the epoch. *)
Definition parseIsoDate (s : string) : Z :=
  let l := list_ascii_of_string s in
  match l with
  | [y1; y2; y3; y4; _; m1; m2; _; d1; d2] =>
      daysFromCivil (digitsValue 10 [y1; y2; y3; y4])
                    (digitsValue 10 [m1; m2])
                    (digitsValue 10 [d1; d2]) * 86400000
  | _ => 0
  end.

Definition twoDigit (n : Z) : string :=
  padStart (String_ (Z.to_nat n)) 2 "0".

(** India Standard Time (UTC+05:30), 24-hour labels. *)
Definition IST : Host := {|
  tzOffset := 19800000;
  parseDate := parseIsoDate;
  toLocaleTimeString := fun t =>
    let l := t + 19800000 in
    String.append (twoDigit ((l / 3600000) mod 24))
      (String.append ":" (twoDigit ((l / 60000) mod 60)))
|}.

(** ** Vocabulary of the statements *)

(** A quarter of an hour, in milliseconds. *)
Definition quarter : Z := 900000.

(** The character of the decimal digit [d]. *)
Definition digitChar (d : nat) : ascii := ascii_of_nat (48 + d).

(** The one-character and the zero-padded two-character numeral of [n]. *)
Definition oneDigit (n : nat) : string := String (digitChar n) EmptyString.
Definition twoDigits (n : nat) : string :=
  String (digitChar (n / 10)) (String (digitChar (n mod 10)) EmptyString).

(** The character ["0"] occurs in [s]. *)
Fixpoint hasZero (s : string) : bool :=
  match s with
  | EmptyString => false
  | String c r => Ascii.eqb c "0"%char || hasZero r
  end.

(** The k-th quarter of the day that starts at [base]. *)
Definition quarterOf (base : Z) (k : nat) : Z * Z :=
  (base + Z.of_nat k * quarter, base + (Z.of_nat k + 1) * quarter).

Definition boundsOf (s : SlotBoundary.t) : Z * Z :=
  (SlotBoundary.start s, SlotBoundary.end_ s).

(** Local midnight of the local day [new Date(dateStr)] falls in. *)
Definition dayStart `{Host} (dateStr : string) : Z :=
  JsDate.setHours4 (parseDate dateStr) 0 0 0 0.

(** The slot the double loop of [getTimeSlotBoundaries] builds at step [k]
    of its 96 steps, over the day that starts at [base]. *)
Definition loopSlot `{Host} (base : Z) (k : nat) : SlotBoundary.t :=
  let hour := Z.of_nat k / 4 in
  let minute := (Z.of_nat k mod 4) * 15 in
  let start := JsDate.setHours4 base hour minute 0 0 in
  let end_ := JsDate.setMinutes start (minute + 15) in
  SlotBoundary.mk start end_
    (String.append (toLocaleTimeString start)
       (String.append " - " (toLocaleTimeString end_))).

(** [t] lies in the slot, and in the local day [new Date(dateStr)] falls in. *)
Definition inSlot (s : SlotBoundary.t) (t : Z) : bool :=
  (SlotBoundary.start s <=? t) && (t <? SlotBoundary.end_ s).

Definition inDay `{Host} (dateStr : string) (t : Z) : bool :=
  (dayStart dateStr <=? t) && (t <? dayStart dateStr + JsDate.msPerDay).

(** *** Summaries, number by number *)

(** The user a document is counted under: [userId || id]. *)
Definition uidOf (doc : Doc) : string := orElse (userId (data doc)) (id doc).

Definition amountOf (doc : Doc) : Z := amount (data doc).

(** The documents that carry the number [k]. *)
Definition entriesOf (k : string) (docs : list Doc) : list Doc :=
  List.filter (fun doc => String.eqb (number (data doc)) k) docs.

Definition sumZ (l : list Z) : Z := fold_right Z.add 0 l.

(** The least positive element of [l], and [0] when there is none. *)
Definition minPositive (l : list Z) : Z :=
  match List.filter (fun a => 0 <? a) l with
  | [] => 0
  | a :: r => fold_left Z.min r a
  end.

(** What an order-blind reader of [docs] reports for the number [k]. *)
Definition summaryOf (docs : list Doc) (k : string) : SummaryItem.t :=
  {| SummaryItem.number := k;
     SummaryItem.total := sumZ (List.map amountOf (entriesOf k docs));
     SummaryItem.userCount :=
       size (list_to_set (List.map uidOf (entriesOf k docs)) : gset string);
     SummaryItem.minAmount := minPositive (List.map amountOf (entriesOf k docs)) |}.

(** The in-place update [addEntry] makes to the record of a number. *)
Definition updInfo (entry : Info.t) (doc : Doc) : Info.t :=
  {| Info.total := Info.total entry + amount (data doc);
     Info.users := {[ uidOf doc ]} ∪ Info.users entry;
     Info.minAmount :=
       if 0 <? amount (data doc)
       then Math_min (Info.minAmount entry) (Fin (amount (data doc)))
       else Info.minAmount entry |}.

Definition hasKey (ks : list string) (k : string) : bool :=
  existsb (fun k' => String.eqb k' k) ks.

(** The keys of [numberMap] after one more document, and after a run of them. *)
Definition addKey (ks : list string) (doc : Doc) : list string :=
  if hasKey ks (number (data doc)) then ks else ks ++ [number (data doc)].

Definition keysAfter (ks : list string) (docs : list Doc) : list string :=
  fold_left addKey docs ks.

(** The record [numberMap] holds for [k], or a fresh one. *)
Definition getInfo (m : list (string * Info.t)) (k : string) : Info.t :=
  default Info.fresh (Map_get m k).

(** The running minimum of [addEntry], on a bare amount. *)
Definition stepMin (a : jsnum) (x : Z) : jsnum :=
  if 0 <? x then Math_min a (Fin x) else a.

(** The total a summary reports for the number [k], and [0] when it has no
    item for [k]. *)
Definition totalFor (k : string) (items : list SummaryItem.t) : Z :=
  match List.find (fun item => String.eqb (SummaryItem.number item) k) items with
  | Some item => SummaryItem.total item
  | None => 0
  end.

(** Some document carries the number [k]. *)
Definition hasEntry (docs : list Doc) (k : string) : bool :=
  existsb (fun doc => String.eqb (number (data doc)) k) docs.

(** An entry as a submission writes it: a number of the legal domain of its
    variant and a positive amount. *)
Definition legalEntry (d : EntryData) : Prop :=
  In (number d) (generateAllNumbers (type d)) /\ 0 < amount d.

Definition legalStore (st : Store) : Prop :=
  List.Forall (fun doc => legalEntry (data doc)) st.

(** *** Submission *)

(** The format rule of a variant: one digit from 1 to 9, or two digits,
    zero-padded, with value from 1 to 99. *)
Definition legalFormat (type_ : BetType) (s : string) : Prop :=
  match type_ with
  | single => exists d : nat, (1 <= d <= 9)%nat /\ s = oneDigit d
  | jodi => exists n : nat, (1 <= n <= 99)%nat /\ s = twoDigits n
  end.

(** The check [handleSubmit] runs on the number. *)
Definition numberPasses (type_ : BetType) (s : string) : bool :=
  match type_ with
  | single => test_1_9 s
  | jodi =>
      test_2digits s
      && match outside_1_99 (Number_ s) with Some false => true | _ => false end
  end.

(** The document a successful submission writes. *)
Definition submittedDoc (st : Store) (number_ : string) (a : Z) (type_ : BetType)
    (date_ : string) (now : Z) : Doc :=
  {| id := autoId st;
     data := {| number := number_; amount := a; userId := None;
                createdAt := now; date := date_; type := type_;
                pending := Some true; processedAt := None |} |}.

(** *** Ranking *)

Definition jsnum_lt (a b : jsnum) : Prop :=
  match a, b with
  | Fin x, Fin y => x < y
  | Fin _, Inf => True
  | Inf, _ => False
  end.

(** [a] is strictly below [b] in the lexicographic order of
    (amount, userCount, numeric value of the number). *)
Definition rankLt (a b : AggregatedBet.t) : Prop :=
  jsnum_lt (AggregatedBet.amount a) (AggregatedBet.amount b)
  \/ (AggregatedBet.amount a = AggregatedBet.amount b
      /\ (jsnum_lt (AggregatedBet.userCount a) (AggregatedBet.userCount b)
          \/ (AggregatedBet.userCount a = AggregatedBet.userCount b
              /\ exists x y,
                   parseInt (AggregatedBet.number a) = Some x
                   /\ parseInt (AggregatedBet.number b) = Some y
                   /\ x < y))).

(** The numbers the ranking looks up: the padded numerals from 0 to the
    maximum of the variant, without "00". *)
Definition rankedNumbers (viewType : BetType) : list string :=
  match viewType with
  | jodi => generateAllNumbers jodi
  | single => "0" :: generateAllNumbers single
  end.

(** The numeral the ranking builds for [i]. *)
Definition paddedNumber (viewType : BetType) (i : nat) : string :=
  padStart (String_ i) (match viewType with jodi => 2 | single => 1 end) "0".

(** The entry of [allNumbersWithBets] for [i], before "00" is dropped. *)
Definition betOrSentinel (viewType : BetType) (aggregatedBets : list AggregatedBet.t)
    (i : nat) : AggregatedBet.t :=
  match Viewer.findBet aggregatedBets (paddedNumber viewType i) with
  | Some existingBet => existingBet
  | None => AggregatedBet.mk (paddedNumber viewType i) Inf Inf
  end.

Definition maxNumberOf (viewType : BetType) : nat :=
  match viewType with single => 9 | jodi => 99 end.

(** The numbers with recorded activity, as the ranking sees them. *)
Definition candidates (viewType : BetType) (aggregatedBets : list AggregatedBet.t)
    : list AggregatedBet.t :=
  List.filter (fun item => negb (jsnum_eqb (AggregatedBet.amount item) Inf))
    (Viewer.allNumbersWithBets viewType aggregatedBets).

(** The same three numbers as [fetchData] hands them to the table row. *)
Definition exampleSlotEntries : list SlotEntry.t :=
  [ SlotEntry.mk "05" 100 2 None None;
    SlotEntry.mk "07" 100 1 None None;
    SlotEntry.mk "09" 50 3 None None ].

(** The sort key of a bet whose number reads as [x], and the order the
    comparator induces on keys. *)
Definition keyLe (k1 k2 : jsnum * jsnum * Z) : Prop :=
  let '(a1, u1, x1) := k1 in
  let '(a2, u2, x2) := k2 in
  jsnum_lt a1 a2 \/ (a1 = a2 /\ (jsnum_lt u1 u2 \/ (u1 = u2 /\ x1 <= x2))).

Definition keyOf (b : AggregatedBet.t) (x : Z) : jsnum * jsnum * Z :=
  (AggregatedBet.amount b, AggregatedBet.userCount b, x).

(** The number of the bet reads as an integer. *)
Definition numeric (b : AggregatedBet.t) : Prop :=
  exists x, parseInt (AggregatedBet.number b) = Some x.

(** The worked example: three numbers, a tie on the amount. *)
Definition exampleBets : list AggregatedBet.t :=
  [ AggregatedBet.mk "05" (Fin 100) (Fin 2);
    AggregatedBet.mk "07" (Fin 100) (Fin 1);
    AggregatedBet.mk "09" (Fin 50) (Fin 3) ].

(** *** Grouping in the viewer *)

(** The amount [groupedSlots] holds for the number [n] in the slot keyed [k]. *)
Definition slotAmount (groupedSlots : gmap Z (gmap string Cell.t)) (k : Z)
    (n : string) : option Z :=
  match groupedSlots !! k with
  | Some slot =>
      match slot !! n with
      | Some cell => Some (Cell.amount cell)
      | None => None
      end
  | None => None
  end.

(** A document of the viewed variant and date whose slot key is [k] and whose
    number is [n]; the pending flag plays no part. *)
Definition contributes `{Host} (viewType : BetType) (dateStr : string) (k : Z)
    (n : string) (doc : Doc) : bool :=
  BetType_eqb (type (data doc)) viewType
  && String.eqb (date (data doc)) dateStr
  && (Viewer.getTimeSlotKey (createdAt (data doc)) =? k)
  && String.eqb (number (data doc)) n.

(** The entries [groupEntry] adds to the cell of [k] and [n]. *)
Definition lands `{Host} (now k : Z) (n : string) (doc : Doc) : bool :=
  (Viewer.getTimeSlotKey (createdAt (data doc)) <=? now)
  && (Viewer.getTimeSlotKey (createdAt (data doc)) =? k)
  && String.eqb (number (data doc)) n.

(** A cell's amount after more amounts are added to it. *)
Definition addAmounts (o : option Z) (xs : list Z) : option Z :=
  match xs with
  | [] => o
  | _ => Some (default 0 o + sumZ xs)
  end.

(** *** Promotion *)

Global Instance BetType_eq_dec : EqDecision BetType.
Proof. solve_decision. Defined.

(** A pending entry of the selected date and variant, created in the quarter
    hour before [slotStart]. *)
Definition inPreviousSlot (date_ : string) (type_ : BetType) (slotStart : Z)
    (doc : Doc) : bool :=
  bool_decide (date (data doc) = date_
               /\ type (data doc) = type_
               /\ pending (data doc) = Some true
               /\ slotStart - quarter <= createdAt (data doc) < slotStart).

(** The two records agree on every field a submission writes. *)
Definition sameBet (a b : EntryData) : bool :=
  bool_decide (number a = number b /\ amount a = amount b
               /\ userId a = userId b /\ createdAt a = createdAt b
               /\ date a = date b /\ type a = type b).

(** [new] carries every field of [orig], is flagged settled and has a
    promotion timestamp. *)
Definition isSettledCopy (orig new : Doc) : Prop :=
  number (data new) = number (data orig)
  /\ amount (data new) = amount (data orig)
  /\ userId (data new) = userId (data orig)
  /\ createdAt (data new) = createdAt (data orig)
  /\ date (data new) = date (data orig)
  /\ type (data new) = type (data orig)
  /\ pending (data new) = Some false
  /\ is_Some (processedAt (data new)).

(** How many settled documents of the store repeat the bet [orig]. *)
Definition settledCopiesOf (orig : EntryData) (st : Store) : nat :=
  length (List.filter
            (fun doc => sameBet orig (data doc) && fieldIs false (pending (data doc)))
            st).

(** How many pending documents of the slot before [slotStart] are the bet [orig]. *)
Definition pendingOriginalsOf (date_ : string) (type_ : BetType) (slotStart : Z)
    (orig : EntryData) (st : Store) : nat :=
  length (List.filter
            (fun doc => inPreviousSlot date_ type_ slotStart doc
                        && sameBet orig (data doc))
            st).

(** *** Sample data *)

(** 2025-05-01, 12:07:00 and 12:15:00 India Standard Time. *)
Definition t_12_07 : Z := 1746081420000.
Definition t_12_15 : Z := 1746081900000.
Definition t_12_30 : Z := 1746082800000.

Definition sampleEntry (number_ : string) (amount_ : Z) (user : option string)
    (at_ : Z) (type_ : BetType) (pending_ : option bool) : EntryData :=
  {| number := number_; amount := amount_; userId := user; createdAt := at_;
     date := "2025-05-01"; type := type_; pending := pending_;
     processedAt := None |}.

(** A settled document whose number lies outside the jodi domain. *)
Definition strayStore : Store :=
  [ {| id := "a"; data := sampleEntry "00" 10 None t_12_07 jodi (Some false) |} ].

(** Two settled documents whose numbers lie outside the jodi domain. *)
Definition strayDocs : list Doc :=
  [ {| id := "a"; data := sampleEntry "00" 10 None t_12_07 jodi (Some false) |};
    {| id := "b"; data := sampleEntry "7" 20 None t_12_07 jodi (Some false) |} ].

(** Three settled bets on two numbers, by two users. *)
Definition sampleDocs : list Doc :=
  [ {| id := "a"; data := sampleEntry "05" 100 (Some "u1") t_12_07 jodi (Some false) |};
    {| id := "b"; data := sampleEntry "07" 40 (Some "u2") t_12_07 jodi (Some false) |};
    {| id := "c"; data := sampleEntry "05" 30 (Some "u2") t_12_07 jodi (Some false) |} ].

(** One bet placed at 12:07, still pending, and the slot that opens at 12:15. *)
Definition pendingDoc : Doc :=
  {| id := "p"; data := sampleEntry "42" 50 (Some "u1") t_12_07 jodi (Some true) |}.

Definition pendingStore : Store := [ pendingDoc ].

Definition slot_12_15 : TimeSlot.t :=
  @Admin.getCurrentTimeSlot IST (t_12_15 + 30000).

(** The settled copy of the pending sample bet, as promotion writes it. *)
Definition settledDoc : Doc :=
  {| id := "doc1"; data := @Admin.settledCopy (data pendingDoc) (t_12_15 + 30000) |}.

(** * Properties *)

(** ** Date arithmetic *)

Section DateFacts.
Context `{Host}.
Import JsDate.

Lemma time_decompose (t : Z) :
  MakeDate (Day t)
    (MakeTime (HourFromTime t) (MinFromTime t) (SecFromTime t) (msFromTime t)) = t.
Proof.
  unfold MakeDate, MakeTime, Day, HourFromTime, MinFromTime, SecFromTime,
    msFromTime, msPerDay, msPerHour, msPerMinute, msPerSecond.
  Z.div_mod_to_equations. lia.
Qed.

Lemma setMinutes_shift (d m : Z) :
  setMinutes d m = d + (m - getMinutes d) * msPerMinute.
Proof.
  pose proof (time_decompose (LocalTime d)) as E.
  unfold setMinutes, getMinutes, UTC, MakeDate, MakeTime, LocalTime in *.
  cbv zeta. lia.
Qed.

Lemma setMinutes3_shift (d m : Z) :
  setMinutes3 d m 0 0
  = d + (m - getMinutes d) * msPerMinute - getSeconds d * msPerSecond
      - getMilliseconds d.
Proof.
  pose proof (time_decompose (LocalTime d)) as E.
  unfold setMinutes3, getMinutes, getSeconds, getMilliseconds, UTC, MakeDate,
    MakeTime, LocalTime in *.
  cbv zeta. lia.
Qed.

Lemma setSeconds_shift (d s : Z) :
  setSeconds d s = d + (s - getSeconds d) * msPerSecond.
Proof.
  pose proof (time_decompose (LocalTime d)) as E.
  unfold setSeconds, getSeconds, UTC, MakeDate, MakeTime, LocalTime in *.
  cbv zeta. lia.
Qed.

Lemma setMilliseconds_shift (d ms : Z) :
  setMilliseconds d ms = d + (ms - getMilliseconds d).
Proof.
  pose proof (time_decompose (LocalTime d)) as E.
  unfold setMilliseconds, getMilliseconds, UTC, MakeDate, MakeTime, LocalTime in *.
  cbv zeta. lia.
Qed.

Lemma getTimeSlotKey_closed (T : Z) :
  LocalTime (Viewer.getTimeSlotKey T) = (LocalTime T / quarter + 1) * quarter.
Proof.
  unfold Viewer.getTimeSlotKey. cbv zeta.
  rewrite setMilliseconds_shift, setSeconds_shift, setMinutes_shift.
  unfold getMilliseconds, getSeconds, getMinutes, Viewer.ceilDiv.
  unfold LocalTime, msFromTime, SecFromTime, MinFromTime, msPerMinute,
    msPerSecond, quarter.
  set (L := T + tzOffset).
  replace (T + (- (- ((L / 60000) mod 60 + 1) / 15) * 15 - (L / 60000) mod 60) * 60000
           + tzOffset)
    with (L + (- (- ((L / 60000) mod 60 + 1) / 15) * 15 - (L / 60000) mod 60) * 60000)
    by (unfold L; lia).
  Z.div_mod_to_equations. lia.
Qed.

End DateFacts.

(** ** Number space *)

Lemma generateAllNumbers_numerals :
  generateAllNumbers single = List.map oneDigit (seq 1 9)
  /\ generateAllNumbers jodi = List.map twoDigits (seq 1 99).
Proof. split; vm_compute; reflexivity. Qed.

(** C8. [generateAllNumbers single] is the nine numerals "1" to "9" in order,
    none containing "0"; [generateAllNumbers jodi] is the ninety-nine
    numerals "01" to "99" in order, each two characters wide, and "00" is not
    among them. *)
Theorem generateAllNumbers_domain :
  generateAllNumbers single = ["1"; "2"; "3"; "4"; "5"; "6"; "7"; "8"; "9"]
  /\ generateAllNumbers single = List.map oneDigit (seq 1 9)
  /\ length (generateAllNumbers single) = 9%nat
  /\ forallb (fun s => negb (hasZero s)) (generateAllNumbers single) = true
  /\ generateAllNumbers jodi = List.map twoDigits (seq 1 99)
  /\ length (generateAllNumbers jodi) = 99%nat
  /\ Forall (fun s => String.length s = 2%nat) (generateAllNumbers jodi)
  /\ ~ In "00" (generateAllNumbers jodi)
  /\ hd_error (generateAllNumbers jodi) = Some "01"
  /\ List.last (generateAllNumbers jodi) EmptyString = "99"
  /\ List.NoDup (generateAllNumbers single)
  /\ List.NoDup (generateAllNumbers jodi).
Proof.
  destruct generateAllNumbers_numerals as [Es Ej].
  repeat split; try (vm_compute; reflexivity); try assumption.
  - rewrite Ej. apply List.Forall_forall. intros s Hs.
    apply in_map_iff in Hs as [n [<- _]]. reflexivity.
  - intros Hin.
    assert (Hb : existsb (String.eqb "00") (generateAllNumbers jodi) = true).
    { apply existsb_exists. exists "00". split; [exact Hin | apply String.eqb_refl]. }
    vm_compute in Hb. discriminate.
  - apply NoDup_ListNoDup, (bool_decide_unpack _). vm_compute. reflexivity.
  - apply NoDup_ListNoDup, (bool_decide_unpack _). vm_compute. reflexivity.
Qed.

(** ** Slot calculus *)

Section SlotKey.
Context `{Host}.
Import JsDate.

(** C3. The key of a timestamp [T] is the first quarter-hour boundary of
    local time strictly after [T], with seconds and milliseconds zero: it is
    a boundary, it lies after [T], no boundary [b] after [T] precedes it, and
    in whole minutes it is the smallest multiple of 15 above the minute
    offset of [T].  A timestamp on a boundary is keyed by the next boundary,
    never by itself. *)
Theorem getTimeSlotKey_next_boundary (T b : Z) :
  LocalTime b mod quarter = 0 -> T < b ->
  let k := Viewer.getTimeSlotKey T in
  LocalTime k mod quarter = 0
  /\ getSeconds k = 0 /\ getMilliseconds k = 0
  /\ T < k /\ k <= b
  /\ k = T - LocalTime T mod quarter + quarter
  /\ LocalTime k / msPerMinute = (LocalTime T / msPerMinute / 15 + 1) * 15
  /\ k <> T.
Proof.
  intros Hb HTb. cbv zeta.
  generalize (getTimeSlotKey_closed T). generalize (Viewer.getTimeSlotKey T).
  intros k E.
  unfold getSeconds, getMilliseconds, SecFromTime, msFromTime, msPerSecond,
    msPerMinute.
  rewrite E. unfold LocalTime, quarter in *.
  repeat split; Z.div_mod_to_equations; lia.
Qed.

End SlotKey.

Lemma getTimeSlotKey_next_boundary_witness :
  @JsDate.LocalTime IST t_12_30 mod quarter = 0
  /\ t_12_15 < t_12_30
  /\ @Viewer.getTimeSlotKey IST t_12_15 = t_12_30.
Proof.
  assert (Hb : @JsDate.LocalTime IST t_12_30 mod quarter = 0) by reflexivity.
  assert (Hlt : t_12_15 < t_12_30) by reflexivity.
  split; [exact Hb |]. split; [exact Hlt |].
  destruct (getTimeSlotKey_next_boundary (H := IST) t_12_15 t_12_30 Hb Hlt)
    as (_ & _ & _ & _ & _ & E & _).
  rewrite E. reflexivity.
Defined.

(** 12:07 is keyed by 12:15, and 12:15 by 12:30. *)
Example getTimeSlotKey_12_07 : @Viewer.getTimeSlotKey IST t_12_07 = t_12_15.
Proof. reflexivity. Qed.

Example getTimeSlotKey_12_15 : @Viewer.getTimeSlotKey IST t_12_15 = t_12_30.
Proof. reflexivity. Qed.

(** ** Sorting *)

Section SortFacts.
Context {A : Type} (cmp : A -> A -> Z).

Lemma insertBy_last (x : A) (l : list A) :
  List.Forall (fun y => 0 < cmp x y) l -> insertBy cmp x l = l ++ [x].
Proof.
  induction 1 as [| y l Hy _ IH]; simpl; [reflexivity |].
  destruct (Z.leb_spec (cmp x y) 0); [lia | now rewrite IH].
Qed.

(** Sorting a list in which every element exceeds all later ones reverses it. *)
Lemma sortBy_reverses (l : list A) :
  StronglySorted (fun x y => 0 < cmp x y) l -> sortBy cmp l = rev l.
Proof.
  induction 1 as [| x l _ IH Hx]; [reflexivity |].
  change (sortBy cmp (x :: l)) with (insertBy cmp x (sortBy cmp l)).
  rewrite IH. simpl. apply insertBy_last.
  apply List.Forall_forall. intros y Hy. apply List.in_rev in Hy.
  revert y Hy. now apply List.Forall_forall.
Qed.

Lemma insertBy_Permutation (x : A) (l : list A) :
  Permutation (insertBy cmp x l) (x :: l).
Proof.
  induction l as [| y l IH]; simpl; [reflexivity |].
  destruct (cmp x y <=? 0); [reflexivity |].
  rewrite IH. apply perm_swap.
Qed.

Lemma sortBy_Permutation (l : list A) : Permutation (sortBy cmp l) l.
Proof.
  induction l as [| x l IH]; [reflexivity |].
  change (sortBy cmp (x :: l)) with (insertBy cmp x (sortBy cmp l)).
  rewrite insertBy_Permutation. now constructor.
Qed.

End SortFacts.

Lemma StronglySorted_map_seq {A : Type} (R : A -> A -> Prop) (f : nat -> A)
    (a n : nat) :
  (forall i j, (a <= i)%nat -> (i < j)%nat -> (j < a + n)%nat -> R (f i) (f j)) ->
  StronglySorted R (List.map f (seq a n)).
Proof.
  revert a. induction n as [| n IH]; intros a Hf; simpl; constructor.
  - apply IH. intros i j Hi Hij Hj. apply Hf; lia.
  - apply List.Forall_forall. intros y Hy.
    apply List.in_map_iff in Hy as [j [<- Hj]]. apply List.in_seq in Hj.
    apply Hf; lia.
Qed.

Section SlotBoundaries.
Context `{Host}.
Import JsDate.

Lemma dayStart_midnight (dateStr : string) :
  LocalTime (dayStart dateStr) mod msPerDay = 0.
Proof.
  unfold dayStart, setHours4, UTC, LocalTime, MakeDate, MakeTime, Day, msPerDay.
  Z.div_mod_to_equations. lia.
Qed.

Lemma dayStart_contains (dateStr : string) :
  dayStart dateStr <= parseDate dateStr < dayStart dateStr + msPerDay.
Proof.
  unfold dayStart, setHours4, UTC, LocalTime, MakeDate, MakeTime, Day, msPerDay.
  Z.div_mod_to_equations. lia.
Qed.

Lemma setHours4_of_midnight (base h m : Z) :
  LocalTime base mod msPerDay = 0 ->
  setHours4 base h m 0 0 = base + h * msPerHour + m * msPerMinute.
Proof.
  unfold setHours4, UTC, LocalTime, MakeDate, MakeTime, Day, msPerDay,
    msPerHour, msPerMinute, msPerSecond.
  intros Hb. Z.div_mod_to_equations. lia.
Qed.

Lemma getMinutes_of_midnight (base h m : Z) :
  LocalTime base mod msPerDay = 0 -> 0 <= m < 60 ->
  getMinutes (base + h * msPerHour + m * msPerMinute) = m.
Proof.
  unfold getMinutes, MinFromTime, LocalTime, msPerDay, msPerHour, msPerMinute.
  intros Hb Hm. Z.div_mod_to_equations. lia.
Qed.

End SlotBoundaries.

(** The double loop over hours and quarters is a single loop of 96 steps. *)
Lemma quarters_loop {A : Type} (mk : Z -> Z -> A) :
  flat_map (fun hour => List.map (fun minute => mk hour minute) [0; 15; 30; 45])
    (List.map Z.of_nat (seq 0 24))
  = List.map (fun k => mk (Z.of_nat k / 4) ((Z.of_nat k mod 4) * 15)) (seq 0 96).
Proof. reflexivity. Qed.

Lemma rev_map_seq_96 {A : Type} (f : nat -> A) :
  rev (List.map f (seq 0 96)) = List.map (fun i => f (95 - i)%nat) (seq 0 96).
Proof. reflexivity. Qed.

Section SlotBoundariesMain.
Context `{Host}.
Import JsDate.

Lemma loopSlot_bounds (base : Z) (k : nat) :
  LocalTime base mod msPerDay = 0 ->
  boundsOf (loopSlot base k) = quarterOf base k.
Proof.
  intros Hb. unfold boundsOf, loopSlot, quarterOf. cbn [SlotBoundary.start SlotBoundary.end_].
  rewrite setMinutes_shift, setHours4_of_midnight by exact Hb.
  rewrite getMinutes_of_midnight by (try exact Hb; Z.div_mod_to_equations; lia).
  unfold msPerHour, msPerMinute, quarter. f_equal; Z.div_mod_to_equations; lia.
Qed.

Lemma loopSlot_start (base : Z) (k : nat) :
  LocalTime base mod msPerDay = 0 ->
  SlotBoundary.start (loopSlot base k) = base + Z.of_nat k * quarter.
Proof.
  intros Hb. exact (f_equal fst (loopSlot_bounds base k Hb)).
Qed.

Lemma loopSlot_end (base : Z) (k : nat) :
  LocalTime base mod msPerDay = 0 ->
  SlotBoundary.end_ (loopSlot base k) = base + (Z.of_nat k + 1) * quarter.
Proof.
  intros Hb. exact (f_equal snd (loopSlot_bounds base k Hb)).
Qed.

Lemma getTimeSlotBoundaries_unfold (dateStr : string) :
  Admin.getTimeSlotBoundaries dateStr
  = List.map (fun i => loopSlot (dayStart dateStr) (95 - i)) (seq 0 96).
Proof.
  pose proof (dayStart_midnight dateStr) as Hb.
  unfold Admin.getTimeSlotBoundaries. cbv zeta. fold (dayStart dateStr).
  set (base := dayStart dateStr) in *.
  rewrite (quarters_loop (fun hour minute =>
    SlotBoundary.mk (setHours4 base hour minute 0 0)
      (setMinutes (setHours4 base hour minute 0 0) (minute + 15))
      (String.append (toLocaleTimeString (setHours4 base hour minute 0 0))
         (String.append " - "
            (toLocaleTimeString
               (setMinutes (setHours4 base hour minute 0 0) (minute + 15))))))).
  transitivity (sortBy (fun a b => SlotBoundary.start b - SlotBoundary.start a)
                  (List.map (loopSlot base) (seq 0 96))); [reflexivity |].
  rewrite sortBy_reverses.
  - apply rev_map_seq_96.
  - apply StronglySorted_map_seq. intros i j _ Hij _.
    rewrite !loopSlot_start by exact Hb. unfold quarter. lia.
Qed.

End SlotBoundariesMain.

Lemma map_seq_96_ends {A : Type} (f : nat -> A) :
  head (List.map f (seq 0 96)) = Some (f 0%nat)
  /\ last (List.map f (seq 0 96)) = Some (f 95%nat)
  /\ removelast (List.map f (seq 0 96)) = List.map f (seq 0 95)
  /\ tl (List.map f (seq 0 96)) = List.map (fun i => f (S i)) (seq 0 95).
Proof. repeat split. Qed.

Section SlotBoundariesClaim.
Context `{Host}.
Import JsDate.


End SlotBoundariesClaim.

(** ** The insertion-ordered map *)

Section MapFacts.
Context {V : Type}.
Implicit Types (m : list (string * V)) (k : string) (v : V).

Lemma Map_has_keys m k : Map_has m k = hasKey (List.map fst m) k.
Proof.
  unfold Map_has, hasKey. induction m as [| p m IH]; simpl; [reflexivity |].
  now rewrite IH.
Qed.

Lemma hasKey_In (ks : list string) k : hasKey ks k = true <-> In k ks.
Proof.
  unfold hasKey. rewrite List.existsb_exists. split.
  - intros [k' [Hin Heq]]. apply String.eqb_eq in Heq. now subst.
  - intros Hin. exists k. split; [exact Hin | apply String.eqb_refl].
Qed.

Lemma Map_get_None m k : Map_has m k = false -> Map_get m k = None.
Proof.
  induction m as [| [k' v'] m IH]; simpl; [reflexivity |].
  destruct (String.eqb k' k); simpl; [discriminate | exact IH].
Qed.

Lemma Map_get_Some m k : Map_has m k = true -> exists v, Map_get m k = Some v.
Proof.
  induction m as [| [k' v'] m IH]; simpl; [discriminate |].
  destruct (String.eqb k' k); simpl; [intros _; now exists v' | exact IH].
Qed.

Lemma Map_get_set m k v k' :
  Map_get (Map_set m k v) k' = if String.eqb k k' then Some v else Map_get m k'.
Proof.
  induction m as [| [k0 v0] m IH]; simpl.
  - destruct (String.eqb k k'); reflexivity.
  - destruct (String.eqb_spec k0 k) as [-> | Hne]; simpl.
    + destruct (String.eqb k k'); reflexivity.
    + rewrite IH. destruct (String.eqb_spec k0 k') as [-> | Hne'];
        [| reflexivity].
      destruct (String.eqb_spec k k'); [congruence | reflexivity].
Qed.

Lemma Map_set_keys m k v :
  List.map fst (Map_set m k v)
  = if Map_has m k then List.map fst m else List.map fst m ++ [k].
Proof.
  induction m as [| [k0 v0] m IH]; simpl; [reflexivity |].
  destruct (String.eqb k0 k); simpl; [reflexivity |].
  rewrite IH. now destruct (Map_has m k).
Qed.

Lemma Map_get_In m k v :
  List.NoDup (List.map fst m) -> In (k, v) m -> Map_get m k = Some v.
Proof.
  induction m as [| [k0 v0] m IH]; simpl; [intros _ [] |].
  intros Hnd [Heq | Hin].
  - injection Heq as -> ->. now rewrite String.eqb_refl.
  - apply List.NoDup_cons_iff in Hnd as [Hk0 Hnd].
    destruct (String.eqb_spec k0 k) as [-> | _]; [| now apply IH].
    exfalso. apply Hk0. apply List.in_map_iff. now exists (k, v).
Qed.

Lemma Map_has_set m k v : Map_has (Map_set m k v) k = true.
Proof.
  induction m as [| [k0 v0] m IH]; simpl.
  - now rewrite String.eqb_refl.
  - destruct (String.eqb k0 k) eqn:E; simpl; rewrite E; [reflexivity | exact IH].
Qed.

End MapFacts.

(** ** The aggregator *)

Section AggregatorFacts.
Implicit Types (m : list (string * Info.t)) (doc : Doc) (docs : list Doc)
  (k : string) (ks : list string).

Lemma addEntry_keys m doc :
  List.map fst (Admin.addEntry m doc) = addKey (List.map fst m) doc.
Proof.
  unfold Admin.addEntry, addKey. rewrite <- Map_has_keys.
  destruct (Map_has m (number (data doc))) eqn:Hhas; simpl.
  - destruct (Map_get_Some _ _ Hhas) as [e He]. rewrite He.
    now rewrite Map_set_keys, Hhas.
  - rewrite Map_get_set, String.eqb_refl.
    now rewrite Map_set_keys, Map_has_set, Map_set_keys, Hhas.
Qed.

Lemma addEntry_get m doc k :
  getInfo (Admin.addEntry m doc) k
  = if String.eqb (number (data doc)) k
    then updInfo (getInfo m (number (data doc))) doc
    else getInfo m k.
Proof.
  unfold Admin.addEntry, getInfo.
  destruct (Map_has m (number (data doc))) eqn:Hhas; simpl.
  - destruct (Map_get_Some _ _ Hhas) as [e He]. rewrite He.
    rewrite Map_get_set. now destruct (String.eqb (number (data doc)) k).
  - rewrite Map_get_set, String.eqb_refl, !Map_get_set.
    rewrite (Map_get_None _ _ Hhas).
    now destruct (String.eqb (number (data doc)) k).
Qed.

Lemma fold_addEntry_keys docs m :
  List.map fst (fold_left Admin.addEntry docs m) = keysAfter (List.map fst m) docs.
Proof.
  revert m. induction docs as [| doc docs IH]; intros m; simpl; [reflexivity |].
  now rewrite IH, addEntry_keys.
Qed.

Lemma fold_addEntry_get docs m k :
  getInfo (fold_left Admin.addEntry docs m) k
  = fold_left updInfo (entriesOf k docs) (getInfo m k).
Proof.
  revert m. induction docs as [| doc docs IH]; intros m; simpl; [reflexivity |].
  rewrite IH, addEntry_get.
  destruct (String.eqb_spec (number (data doc)) k) as [-> | _]; reflexivity.
Qed.

Lemma addKey_NoDup ks doc : List.NoDup ks -> List.NoDup (addKey ks doc).
Proof.
  intros Hnd. unfold addKey.
  destruct (hasKey ks (number (data doc))) eqn:Hhas; [exact Hnd |].
  apply List.NoDup_app; [exact Hnd | repeat constructor; intros [] |].
  intros x Hx [<- | []]. apply hasKey_In in Hx. congruence.
Qed.

Lemma keysAfter_NoDup docs ks : List.NoDup ks -> List.NoDup (keysAfter ks docs).
Proof.
  revert ks. induction docs as [| doc docs IH]; intros ks Hnd; simpl; [exact Hnd |].
  apply IH, addKey_NoDup, Hnd.
Qed.

(** The seeded keys stay in front; what follows them are the numbers of
    documents that are not among the seeded keys, each once. *)
Lemma keysAfter_extras docs ks :
  List.NoDup ks ->
  exists extras,
    keysAfter ks docs = ks ++ extras
    /\ List.NoDup extras
    /\ forall k, In k extras
         <-> In k (List.map (fun doc => number (data doc)) docs) /\ ~ In k ks.
Proof.
  revert ks. induction docs as [| doc docs IH]; intros ks Hnd.
  - exists []. simpl. rewrite List.app_nil_r.
    repeat split; try constructor; simpl; tauto.
  - change (keysAfter ks (doc :: docs)) with (keysAfter (addKey ks doc) docs).
    destruct (IH _ (addKey_NoDup ks doc Hnd)) as (ex & E & Hex & Hin).
    rewrite E. clear E IH. unfold addKey in *.
    destruct (hasKey ks (number (data doc))) eqn:Hhas.
    + apply hasKey_In in Hhas.
      exists ex. split; [reflexivity |]. split; [exact Hex |].
      intros k. rewrite Hin. simpl. split; [tauto |].
      intros [[Heq | Hk] Hnk]; [subst k |]; tauto.
    + assert (Hn : ~ In (number (data doc)) ks).
      { intros Hc. apply hasKey_In in Hc. congruence. }
      exists (number (data doc) :: ex). rewrite <- List.app_assoc.
      split; [reflexivity |]. split.
      * constructor; [| exact Hex]. intros Hc. apply Hin in Hc as [_ Hc].
        apply Hc, List.in_or_app. right. now left.
      * intros k. simpl. rewrite Hin, List.in_app_iff. simpl.
        destruct (String.eqb_spec (number (data doc)) k) as [Heq | Hne];
          [rewrite Heq in Hn |]; intuition congruence.
Qed.

End AggregatorFacts.

Section InfoFacts.
Implicit Types (l : list Doc) (i : Info.t).

Lemma fold_updInfo_total l i :
  Info.total (fold_left updInfo l i) = Info.total i + sumZ (List.map amountOf l).
Proof.
  revert i. induction l as [| doc l IH]; intros i; simpl; [lia |].
  rewrite IH. unfold amountOf. simpl. lia.
Qed.

Lemma fold_updInfo_users l i :
  Info.users (fold_left updInfo l i)
  = list_to_set (List.map uidOf l) ∪ Info.users i.
Proof.
  revert i. induction l as [| doc l IH]; intros i; simpl.
  - now rewrite union_empty_l_L.
  - rewrite IH. simpl.
    rewrite (assoc_L (∪)). f_equal. apply (comm_L (∪)).
Qed.

Lemma fold_updInfo_min l i :
  Info.minAmount (fold_left updInfo l i)
  = fold_left stepMin (List.map amountOf l) (Info.minAmount i).
Proof.
  revert i. induction l as [| doc l IH]; intros i; simpl; [reflexivity |].
  now rewrite IH.
Qed.

Lemma fold_stepMin_filter (xs : list Z) (a : jsnum) :
  fold_left stepMin xs a
  = fold_left (fun a x => Math_min a (Fin x)) (List.filter (fun x => 0 <? x) xs) a.
Proof.
  revert a. induction xs as [| x xs IH]; intros a; simpl; [reflexivity |].
  rewrite IH. unfold stepMin. now destruct (0 <? x).
Qed.

Lemma fold_min_Fin (xs : list Z) (a : Z) :
  fold_left (fun a x => Math_min a (Fin x)) xs (Fin a) = Fin (fold_left Z.min xs a).
Proof.
  revert a. induction xs as [| x xs IH]; intros a; simpl; [reflexivity |].
  now rewrite IH.
Qed.

Lemma fold_stepMin_minPositive (xs : list Z) :
  match fold_left stepMin xs Inf with Fin a => a | Inf => 0 end = minPositive xs.
Proof.
  rewrite fold_stepMin_filter. unfold minPositive.
  destruct (List.filter (fun x => 0 <? x) xs) as [| a r]; simpl; [reflexivity |].
  now rewrite fold_min_Fin.
Qed.

Lemma toSummaryItem_infoOf (docs : list Doc) (k : string) :
  Admin.toSummaryItem (k, fold_left updInfo (entriesOf k docs) Info.fresh)
  = summaryOf docs k.
Proof.
  unfold Admin.toSummaryItem, summaryOf.
  rewrite fold_updInfo_total, fold_updInfo_users, fold_updInfo_min.
  rewrite fold_stepMin_minPositive. simpl. f_equal.
  now rewrite union_empty_r_L.
Qed.

End InfoFacts.

Lemma seedMap_eq (fetchType : BetType) :
  Admin.seedMap fetchType
  = List.map (fun num => (num, Info.fresh)) (generateAllNumbers fetchType).
Proof. destruct fetchType; vm_compute; reflexivity. Qed.

Lemma seedMap_keys (fetchType : BetType) :
  List.map fst (Admin.seedMap fetchType) = generateAllNumbers fetchType.
Proof.
  rewrite seedMap_eq, List.map_map. simpl. apply List.map_id.
Qed.

Lemma seedMap_get (fetchType : BetType) (k : string) :
  getInfo (Admin.seedMap fetchType) k = Info.fresh.
Proof.
  rewrite seedMap_eq. unfold getInfo.
  induction (generateAllNumbers fetchType) as [| n ns IH]; simpl; [reflexivity |].
  destruct (String.eqb n k); [reflexivity | exact IH].
Qed.

Lemma generateAllNumbers_NoDup (fetchType : BetType) :
  List.NoDup (generateAllNumbers fetchType).
Proof.
  apply NoDup_ListNoDup, (bool_decide_unpack _).
  destruct fetchType; vm_compute; reflexivity.
Qed.

(** The summary is the order-blind report, key by key. *)
Lemma summarize_by_key (fetchType : BetType) (docs : list Doc) :
  Admin.summarize fetchType docs
  = List.map (summaryOf docs) (keysAfter (generateAllNumbers fetchType) docs).
Proof.
  unfold Admin.summarize.
  rewrite <- (seedMap_keys fetchType), <- fold_addEntry_keys, List.map_map.
  apply List.map_ext_in. intros [k v] Hin. simpl.
  assert (Hnd : List.NoDup (List.map fst (fold_left Admin.addEntry docs (Admin.seedMap fetchType)))).
  { rewrite fold_addEntry_keys, seedMap_keys.
    apply keysAfter_NoDup, generateAllNumbers_NoDup. }
  pose proof (Map_get_In _ _ _ Hnd Hin) as Hget.
  pose proof (fold_addEntry_get docs (Admin.seedMap fetchType) k) as Hk.
  unfold getInfo at 1 in Hk. rewrite Hget, seedMap_get in Hk. simpl in Hk.
  rewrite Hk. apply toSummaryItem_infoOf.
Qed.



(** Every slot the per-slot view reports is the summary of the settled
    entries of the day and variant that were created in it, and there is at
    least one of them. *)
Lemma fetchTimeSlotData_slots `{Host} (fetchDate : string) (fetchType : BetType)
    (st : Store) :
  List.Forall
    (fun slot =>
       exists docs,
         docs <> []
         /\ (forall doc, In doc docs ->
               In doc st /\ Admin.settledOn fetchDate fetchType doc = true
               /\ TimeSlot.startTime slot <= createdAt (data doc)
                  < TimeSlot.endTime slot)
         /\ TimeSlot.entries slot = Admin.summarize fetchType docs)
    (Admin.fetchTimeSlotData fetchDate fetchType st).
Proof.
  apply List.Forall_forall. intros slot Hin.
  unfold Admin.fetchTimeSlotData in Hin. cbv zeta in Hin.
  apply List.in_flat_map in Hin as (b & _ & Hin).
  match type of Hin with
  | In _ (if (0 <? length ?l)%nat then _ else _) => set (slotEntries := l) in *
  end.
  destruct (Nat.ltb_spec 0 (length slotEntries)) as [Hlen | _]; [| destruct Hin].
  destruct Hin as [<- | []]. exists slotEntries. split; [| split].
  - intros E. rewrite E in Hlen. simpl in Hlen. lia.
  - intros doc Hdoc. apply List.filter_In in Hdoc as [Hdoc Hrange].
    apply (Permutation_in _ (sortBy_Permutation _ _)) in Hdoc.
    apply List.filter_In in Hdoc as [Hst Hq].
    apply andb_true_iff in Hrange as [Hlo Hhi].
    apply Z.leb_le in Hlo. apply Z.ltb_lt in Hhi. simpl. tauto.
  - reflexivity.
Qed.

(** The sample bets: the day summary, the one slot of the per-slot view, and
    a promotion. *)
Example fetchSummary_sample :
  Admin.getActiveNumbers (Admin.fetchSummary "2025-05-01" jodi sampleDocs)
  = [ SummaryItem.mk "05" 130 2 30; SummaryItem.mk "07" 40 1 40 ].
Proof. vm_compute. reflexivity. Qed.

Example fetchTimeSlotData_sample :
  List.map (fun slot => (TimeSlot.startTime slot, TimeSlot.endTime slot,
                         TimeSlot.formattedTimeRange slot,
                         Admin.getActiveNumbers (TimeSlot.entries slot)))
    (@Admin.fetchTimeSlotData IST "2025-05-01" jodi sampleDocs)
  = [ (t_12_15 - quarter, t_12_15, "12:00 - 12:15",
       [ SummaryItem.mk "05" 130 2 30; SummaryItem.mk "07" 40 1 40 ]) ].
Proof. vm_compute. reflexivity. Qed.

Example processPendingEntries_sample :
  @Admin.processPendingEntries IST (Some slot_12_15) "2025-05-01" jodi
    (fun _ => t_12_15 + 30000) pendingStore
  = [pendingDoc; settledDoc].
Proof. vm_compute. reflexivity. Qed.

(** ** Order independence *)

Lemma fold_left_Permutation {A B : Type} (f : A -> B -> A) (l l' : list B) :
  (forall a x y, f (f a x) y = f (f a y) x) ->
  Permutation l l' -> forall a, fold_left f l a = fold_left f l' a.
Proof.
  intros Hf. induction 1 as [| x l l' _ IH | x y l | l l' l'' _ IH1 _ IH2];
    intros a; simpl.
  - reflexivity.
  - apply IH.
  - now rewrite Hf.
  - now rewrite IH1.
Qed.

Lemma filter_Permutation' {A : Type} (p : A -> bool) (l l' : list A) :
  Permutation l l' -> Permutation (List.filter p l) (List.filter p l').
Proof.
  induction 1 as [| x l l' _ IH | x y l | l l' l'' _ IH1 _ IH2]; simpl.
  - reflexivity.
  - destruct (p x); [now constructor | exact IH].
  - destruct (p x), (p y); try reflexivity. apply perm_swap.
  - now rewrite IH1.
Qed.

Lemma sumZ_Permutation (l l' : list Z) : Permutation l l' -> sumZ l = sumZ l'.
Proof.
  induction 1 as [| x l l' _ IH | x y l | l l' l'' _ IH1 _ IH2]; simpl; lia.
Qed.

Lemma stepMin_swap (a : jsnum) (x y : Z) :
  stepMin (stepMin a x) y = stepMin (stepMin a y) x.
Proof.
  unfold stepMin. destruct (0 <? x), (0 <? y), a; simpl; try reflexivity.
  - f_equal. lia.
  - f_equal. lia.
Qed.

Lemma minPositive_Permutation (l l' : list Z) :
  Permutation l l' -> minPositive l = minPositive l'.
Proof.
  intros Hp. rewrite <- !fold_stepMin_minPositive.
  now rewrite (fold_left_Permutation stepMin l l' stepMin_swap Hp).
Qed.

Lemma summaryOf_Permutation (docs docs' : list Doc) (k : string) :
  Permutation docs docs' -> summaryOf docs k = summaryOf docs' k.
Proof.
  intros Hp. unfold summaryOf.
  assert (He : Permutation (entriesOf k docs) (entriesOf k docs'))
    by now apply filter_Permutation'.
  f_equal.
  - apply sumZ_Permutation. now apply Permutation_map.
  - f_equal. apply list_to_set_perm_L. now apply Permutation_map.
  - apply minPositive_Permutation. now apply Permutation_map.
Qed.


(** Only the items of numbers outside the domain can change place: two such
    entries, fed in either order, give the same items in different
    sequences. *)
Example summarize_stray_order :
  Permutation strayDocs (rev strayDocs)
  /\ Admin.summarize jodi strayDocs <> Admin.summarize jodi (rev strayDocs)
  /\ List.map SummaryItem.number (Admin.summarize jodi strayDocs)
     <> generateAllNumbers jodi
  /\ List.map SummaryItem.number (Admin.summarize jodi (rev strayDocs))
     <> generateAllNumbers jodi.
Proof.
  split; [apply perm_swap |].
  split; [| split]; intros E.
  - apply (f_equal (fun l => nth_error (List.map SummaryItem.number l) 99)) in E.
    vm_compute in E. discriminate E.
  - apply (f_equal (@length string)) in E. vm_compute in E. discriminate E.
  - apply (f_equal (@length string)) in E. vm_compute in E. discriminate E.
Qed.


(** ** Promotion of pending entries *)

Section Promotion.
Context `{Host}.
Import JsDate.

Lemma BetType_eqb_eq (a b : BetType) : BetType_eqb a b = true <-> a = b.
Proof. destruct a, b; simpl; split; congruence. Qed.

Lemma fieldIs_eq (b : bool) (o : option bool) : fieldIs b o = true <-> o = Some b.
Proof.
  destruct o as [[] |], b; simpl; split; congruence.
Qed.

Lemma pendingInSlot_spec (date_ : string) (type_ : BetType) (start : Z) (doc : Doc) :
  Admin.pendingInSlot date_ type_
    (setMinutes start (getMinutes start - 15)) start doc
  = inPreviousSlot date_ type_ start doc.
Proof.
  rewrite setMinutes_shift. unfold Admin.pendingInSlot, inPreviousSlot, msPerMinute.
  replace (start + (getMinutes start - 15 - getMinutes start) * 60000)
    with (start - quarter) by (unfold quarter; lia).
  apply eq_true_iff_eq.
  rewrite !andb_true_iff, String.eqb_eq, BetType_eqb_eq, Z.leb_le, Z.ltb_lt,
    fieldIs_eq, bool_decide_eq_true.
  tauto.
Qed.

Lemma promoteBatch_appends (clock : nat -> Z) (batch : list Doc) :
  forall (i : nat) (st : Store),
  exists added,
    Admin.promoteBatch clock i batch st = st ++ added
    /\ Forall2 isSettledCopy batch added.
Proof.
  induction batch as [| doc batch IH]; intros i st; simpl.
  - exists []. split; [now rewrite List.app_nil_r | constructor].
  - destruct (IH (S i) (addDoc st (Admin.settledCopy (data doc) (clock i))))
      as (added & E & Hall).
    eexists (_ :: added). split.
    + rewrite E. unfold addDoc. rewrite <- List.app_assoc. reflexivity.
    + constructor; [| exact Hall].
      unfold isSettledCopy. simpl. repeat split; eauto.
Qed.

Lemma processPendingEntries_appends (slot : TimeSlot.t) (date_ : string)
    (type_ : BetType) (clock : nat -> Z) (st : Store) :
  exists added,
    Admin.processPendingEntries (Some slot) date_ type_ clock st = st ++ added
    /\ Forall2 isSettledCopy
         (List.filter (inPreviousSlot date_ type_ (TimeSlot.startTime slot)) st)
         added.
Proof.
  unfold Admin.processPendingEntries.
  rewrite (List.filter_ext _ _ (pendingInSlot_spec date_ type_ (TimeSlot.startTime slot))).
  apply promoteBatch_appends.
Qed.

(** C5. With a current slot, promotion leaves the collection as it was and
    appends to it one document for each pending entry of the selected date
    and variant whose [createdAt] lies in the quarter hour before the current
    slot's start, in the order the store holds them; each appended document
    copies every field of its original, is flagged settled and carries a
    promotion timestamp.  Without a current slot nothing is written. *)
Theorem processPendingEntries_copies (slot : TimeSlot.t) (date_ : string)
    (type_ : BetType) (clock : nat -> Z) (st : Store) :
  Admin.processPendingEntries None date_ type_ clock st = st
  /\ exists added,
       Admin.processPendingEntries (Some slot) date_ type_ clock st = st ++ added
       /\ Forall2 isSettledCopy
            (List.filter (inPreviousSlot date_ type_ (TimeSlot.startTime slot)) st)
            added.
Proof.
  split; [reflexivity | apply processPendingEntries_appends].
Qed.

End Promotion.

Section PromotionTwice.
Context `{Host}.

Lemma isSettledCopy_counts (orig : EntryData) (batch added : list Doc) :
  Forall2 isSettledCopy batch added ->
  length (List.filter
            (fun doc => sameBet orig (data doc) && fieldIs false (pending (data doc)))
            added)
  = length (List.filter (fun doc => sameBet orig (data doc)) batch).
Proof.
  induction 1 as [| o n batch added Hon _ IH]; simpl; [reflexivity |].
  destruct Hon as (E1 & E2 & E3 & E4 & E5 & E6 & E7 & _).
  assert (Hs : sameBet orig (data n) = sameBet orig (data o)).
  { unfold sameBet. now rewrite E1, E2, E3, E4, E5, E6. }
  rewrite Hs, E7. simpl. rewrite andb_true_r.
  destruct (sameBet orig (data o)); simpl; now rewrite IH.
Qed.

Lemma isSettledCopy_not_pending (date_ : string) (type_ : BetType) (start : Z)
    (orig : EntryData) (batch added : list Doc) :
  Forall2 isSettledCopy batch added ->
  List.filter
    (fun doc => inPreviousSlot date_ type_ start doc && sameBet orig (data doc))
    added = [].
Proof.
  induction 1 as [| o n batch added Hon _ IH]; simpl; [reflexivity |].
  destruct Hon as (_ & _ & _ & _ & _ & _ & E7 & _).
  assert (Hn : inPreviousSlot date_ type_ start n = false).
  { unfold inPreviousSlot. apply bool_decide_eq_false. rewrite E7.
    intros (_ & _ & Hc & _). discriminate. }
  now rewrite Hn.
Qed.

Lemma filter_and_length {A : Type} (p q : A -> bool) (l : list A) :
  List.filter (fun x => p x && q x) l = List.filter q (List.filter p l).
Proof.
  induction l as [| x l IH]; simpl; [reflexivity |].
  destruct (p x); simpl; [destruct (q x) |]; now rewrite IH.
Qed.

Lemma processPendingEntries_counts (slot : TimeSlot.t) (date_ : string)
    (type_ : BetType) (clock : nat -> Z) (st : Store) (orig : EntryData) :
  settledCopiesOf orig (Admin.processPendingEntries (Some slot) date_ type_ clock st)
  = (settledCopiesOf orig st
     + pendingOriginalsOf date_ type_ (TimeSlot.startTime slot) orig st)%nat
  /\ pendingOriginalsOf date_ type_ (TimeSlot.startTime slot) orig
       (Admin.processPendingEntries (Some slot) date_ type_ clock st)
     = pendingOriginalsOf date_ type_ (TimeSlot.startTime slot) orig st.
Proof.
  destruct (processPendingEntries_appends slot date_ type_ clock st)
    as (added & E & Hall).
  rewrite E. unfold settledCopiesOf, pendingOriginalsOf.
  rewrite !List.filter_app, !List.length_app.
  rewrite (isSettledCopy_counts orig _ _ Hall).
  rewrite (isSettledCopy_not_pending date_ type_ _ orig _ _ Hall).
  rewrite (filter_and_length (inPreviousSlot date_ type_ (TimeSlot.startTime slot))).
  simpl. split; lia.
Qed.

(** C1, as the code has it.  A run of the promotion engine adds, for every
    bet, as many settled copies as the slot holds pending originals of that
    bet, and the originals stay pending; so two runs for the same slot, date
    and variant add two settled copies per original. *)
Theorem processPendingEntries_twice (slot : TimeSlot.t) (date_ : string)
    (type_ : BetType) (clock clock' : nat -> Z) (st : Store) (orig : EntryData) :
  settledCopiesOf orig (Admin.processPendingEntries (Some slot) date_ type_ clock st)
  = (settledCopiesOf orig st
     + pendingOriginalsOf date_ type_ (TimeSlot.startTime slot) orig st)%nat
  /\ pendingOriginalsOf date_ type_ (TimeSlot.startTime slot) orig
       (Admin.processPendingEntries (Some slot) date_ type_ clock st)
     = pendingOriginalsOf date_ type_ (TimeSlot.startTime slot) orig st
  /\ settledCopiesOf orig
       (Admin.processPendingEntries (Some slot) date_ type_ clock'
          (Admin.processPendingEntries (Some slot) date_ type_ clock st))
     = (settledCopiesOf orig st
        + 2 * pendingOriginalsOf date_ type_ (TimeSlot.startTime slot) orig st)%nat.
Proof.
  destruct (processPendingEntries_counts slot date_ type_ clock st orig) as [E1 E2].
  destruct (processPendingEntries_counts slot date_ type_ clock'
              (Admin.processPendingEntries (Some slot) date_ type_ clock st) orig)
    as [E3 _].
  split; [exact E1 |]. split; [exact E2 |]. rewrite E3, E1, E2. lia.
Qed.

End PromotionTwice.

(** C1 as stated fails: the store holds one pending bet of the 12:00 slot and
    no settled copy of it; after two runs for the slot that opened at 12:15
    it holds two settled copies of that bet, not one. *)
Lemma processPendingEntries_twice_duplicates :
  In pendingDoc pendingStore
  /\ inPreviousSlot "2025-05-01" jodi (TimeSlot.startTime slot_12_15) pendingDoc = true
  /\ settledCopiesOf (data pendingDoc) pendingStore = 0%nat
  /\ settledCopiesOf (data pendingDoc)
       (@Admin.processPendingEntries IST (Some slot_12_15) "2025-05-01" jodi
          (fun _ => t_12_15 + 90000)
          (@Admin.processPendingEntries IST (Some slot_12_15) "2025-05-01" jodi
             (fun _ => t_12_15 + 30000) pendingStore))
     = 2%nat
  /\ settledCopiesOf (data pendingDoc)
       (@Admin.processPendingEntries IST (Some slot_12_15) "2025-05-01" jodi
          (fun _ => t_12_15 + 90000)
          (@Admin.processPendingEntries IST (Some slot_12_15) "2025-05-01" jodi
             (fun _ => t_12_15 + 30000) pendingStore))
     <> 1%nat.
Proof.
  split; [now left |].
  split; [vm_compute; reflexivity |].
  split; [vm_compute; reflexivity |].
  split; [vm_compute; reflexivity |].
  vm_compute. discriminate.
Qed.

(** ** Submission *)

Lemma isDigit_digitChar (c : ascii) :
  isDigit c = true -> exists d : nat, (d <= 9)%nat /\ c = digitChar d.
Proof.
  unfold isDigit. cbv zeta. rewrite andb_true_iff, Nat.leb_le, Nat.leb_le.
  intros [Hlo Hhi]. exists (nat_of_ascii c - 48)%nat. split; [lia |].
  unfold digitChar. replace (48 + (nat_of_ascii c - 48))%nat with (nat_of_ascii c) by lia.
  symmetry. apply ascii_nat_embedding.
Qed.

Lemma upto_9_cases (d : nat) :
  (d <= 9)%nat -> In d [0; 1; 2; 3; 4; 5; 6; 7; 8; 9]%nat.
Proof.
  intros Hd. do 10 (destruct d as [| d]; [simpl; tauto |]). lia.
Qed.

Lemma legalFormat_In (type_ : BetType) (s : string) :
  legalFormat type_ s <-> In s (generateAllNumbers type_).
Proof.
  destruct generateAllNumbers_numerals as [Es Ej].
  destruct type_; unfold legalFormat; [rewrite Ej | rewrite Es];
    rewrite List.in_map_iff; split.
  - intros (n & Hn & ->). exists n. rewrite List.in_seq. split; [reflexivity | lia].
  - intros (n & <- & Hn). apply List.in_seq in Hn. exists n. split; [lia | reflexivity].
  - intros (n & Hn & ->). exists n. rewrite List.in_seq. split; [reflexivity | lia].
  - intros (n & <- & Hn). apply List.in_seq in Hn. exists n. split; [lia | reflexivity].
Qed.

Lemma numberPasses_legal (type_ : BetType) (s : string) :
  numberPasses type_ s = true <-> legalFormat type_ s.
Proof.
  split.
  - destruct type_; simpl.
    + destruct s as [| a [| b [| ? ?]]]; try discriminate. simpl.
      rewrite !andb_true_iff. intros [[Ha Hb] Hv].
      apply isDigit_digitChar in Ha as (x & Hx & ->).
      apply isDigit_digitChar in Hb as (y & Hy & ->).
      exists (10 * x + y)%nat.
      apply upto_9_cases in Hx, Hy. revert Hv. simpl in Hx, Hy.
      repeat (destruct Hx as [<- | Hx]; [| ]);
        repeat (destruct Hy as [<- | Hy]; [| ]);
        try contradiction;
        intros Hv; vm_compute in Hv; try discriminate Hv;
        (split; [lia | reflexivity]).
    + destruct s as [| a [| ? ?]]; try discriminate. simpl.
      rewrite andb_true_iff. intros [Ha Hz].
      apply isDigit_digitChar in Ha as (x & Hx & ->).
      exists x.
      apply upto_9_cases in Hx. revert Hz. simpl in Hx.
      repeat (destruct Hx as [<- | Hx]; [| ]);
        try contradiction;
        intros Hz; vm_compute in Hz; try discriminate Hz;
        (split; [lia | reflexivity]).
  - rewrite legalFormat_In. intros Hin.
    assert (Hall : forallb (numberPasses type_) (generateAllNumbers type_) = true)
      by (destruct type_; vm_compute; reflexivity).
    rewrite List.forallb_forall in Hall. now apply Hall.
Qed.

Lemma test_2digits_Number (s : string) :
  test_2digits s = true -> exists z, Number_ s = Some (Int z).
Proof.
  destruct s as [| a [| b [| ? ?]]]; try discriminate. simpl.
  rewrite andb_true_iff. intros [Ha Hb].
  apply isDigit_digitChar in Ha as (x & Hx & ->).
  apply isDigit_digitChar in Hb as (y & Hy & ->).
  apply upto_9_cases in Hx, Hy. simpl in Hx, Hy.
  repeat (destruct Hx as [<- | Hx]; [| ]);
    repeat (destruct Hy as [<- | Hy]; [| ]);
    try contradiction; eexists; vm_compute; reflexivity.
Qed.

Lemma handleSubmit_number_fails (number_ amount_ : string) (type_ : BetType)
    (date_ : string) (now : Z) (st : Store) :
  numberPasses type_ number_ = false ->
  exists message,
    Admin.handleSubmit number_ amount_ type_ date_ now st
    = Some (ValidationFailed message, st).
Proof.
  unfold Admin.handleSubmit, numberPasses. destruct type_; simpl.
  - destruct (test_2digits number_) eqn:Ht; simpl; [| eauto].
    destruct (test_2digits_Number _ Ht) as [z ->]. simpl.
    destruct ((z <? 1) || (99 <? z)); [eauto | discriminate].
  - intros ->. simpl. eauto.
Qed.

Lemma handleSubmit_number_passes (number_ amount_ : string) (type_ : BetType)
    (date_ : string) (now : Z) (st : Store) :
  numberPasses type_ number_ = true ->
  Admin.handleSubmit number_ amount_ type_ date_ now st
  = if String.eqb amount_ EmptyString then Some (ValidationFailed "Enter a valid amount", st)
    else match Number_ amount_ with
         | None => None
         | Some NaN_ => Some (ValidationFailed "Enter a valid amount", st)
         | Some (Int a) =>
             if a <=? 0 then Some (ValidationFailed "Enter a valid amount", st)
             else Some (Saved, st ++ [submittedDoc st number_ a type_ date_ now])
         end.
Proof.
  unfold Admin.handleSubmit, numberPasses. destruct type_; simpl.
  - destruct (test_2digits number_) eqn:Ht; simpl; [| discriminate].
    destruct (test_2digits_Number _ Ht) as [z ->]. simpl.
    destruct ((z <? 1) || (99 <? z)); [discriminate | reflexivity].
  - intros ->. reflexivity.
Qed.


(** The cases the specification lists. *)
Example handleSubmit_jodi_00 :
  exists message,
    Admin.handleSubmit "00" "10" jodi "2025-05-01" t_12_07 []
    = Some (ValidationFailed message, []).
Proof. eexists. reflexivity. Qed.

Example handleSubmit_single_7 :
  Admin.handleSubmit "7" "10" single "2025-05-01" t_12_07 []
  = Some (Saved, [submittedDoc [] "7" 10 single "2025-05-01" t_12_07]).
Proof. reflexivity. Qed.

Example handleSubmit_amount_minus_5 :
  exists message,
    Admin.handleSubmit "7" "-5" single "2025-05-01" t_12_07 []
    = Some (ValidationFailed message, []).
Proof. eexists. reflexivity. Qed.

Example handleSubmit_amount_0 :
  exists message,
    Admin.handleSubmit "7" "0" single "2025-05-01" t_12_07 []
    = Some (ValidationFailed message, []).
Proof. eexists. reflexivity. Qed.

Example handleSubmit_amount_text :
  exists message,
    Admin.handleSubmit "7" "ten" single "2025-05-01" t_12_07 []
    = Some (ValidationFailed message, []).
Proof. eexists. reflexivity. Qed.

(** ** Least-bet ranking *)

Section SortedFacts.
Context {A : Type} (cmp : A -> A -> Z) (P : A -> Prop).
Hypothesis cmp_total : forall x y, P x -> P y -> 0 < cmp x y -> cmp y x <= 0.
Hypothesis cmp_trans :
  forall x y z, P x -> P y -> P z -> cmp x y <= 0 -> cmp y z <= 0 -> cmp x z <= 0.

Lemma insertBy_In (x y : A) (l : list A) :
  In y (insertBy cmp x l) <-> y = x \/ In y l.
Proof.
  induction l as [| z l IH]; simpl; [intuition |].
  destruct (cmp x z <=? 0); simpl; [intuition |].
  rewrite IH. intuition.
Qed.

Lemma insertBy_sorted (x : A) (l : list A) :
  P x -> List.Forall P l ->
  StronglySorted (fun a b => cmp a b <= 0) l ->
  StronglySorted (fun a b => cmp a b <= 0) (insertBy cmp x l).
Proof.
  intros Hx Hall Hs. induction Hs as [| z l Hs IH Hz]; simpl.
  - repeat constructor.
  - apply List.Forall_cons_iff in Hall as [Pz Hall].
    destruct (Z.leb_spec (cmp x z) 0) as [Hle | Hgt].
    + constructor; [now constructor |].
      constructor; [exact Hle |].
      rewrite List.Forall_forall in *. intros w Hw.
      apply (cmp_trans x z w); auto.
    + constructor; [now apply IH |].
      apply List.Forall_forall. intros w Hw.
      apply insertBy_In in Hw as [-> | Hw].
      * now apply cmp_total.
      * rewrite List.Forall_forall in Hz. now apply Hz.
Qed.

Lemma sortBy_sorted (l : list A) :
  List.Forall P l -> StronglySorted (fun a b => cmp a b <= 0) (sortBy cmp l).
Proof.
  induction 1 as [| x l Hx Hall IH]; [constructor |].
  change (sortBy cmp (x :: l)) with (insertBy cmp x (sortBy cmp l)).
  apply insertBy_sorted; [exact Hx | | exact IH].
  apply List.Forall_forall. intros y Hy.
  apply (Permutation_in _ (sortBy_Permutation cmp l)) in Hy.
  rewrite List.Forall_forall in Hall. now apply Hall.
Qed.

End SortedFacts.

(** In a sorted list whose elements have distinct keys, the order is strict. *)
Lemma StronglySorted_strict {A B : Type} (R R' : A -> A -> Prop) (g : A -> B)
    (l : list A) :
  (forall a b, In a l -> In b l -> R a b -> g a <> g b -> R' a b) ->
  List.NoDup (List.map g l) -> StronglySorted R l -> StronglySorted R' l.
Proof.
  intros HR Hnd Hs. induction Hs as [| a l Hs IH Ha]; [constructor |].
  simpl in Hnd. apply List.NoDup_cons_iff in Hnd as [Hna Hnd].
  constructor.
  - apply IH; [| exact Hnd]. intros x y Hx Hy. apply HR; now right.
  - rewrite List.Forall_forall in *. intros b Hb.
    apply HR; [now left | now right | now apply Ha |].
    intros Heq. apply Hna. rewrite Heq. now apply List.in_map.
Qed.

Lemma NoDup_map_filter {A B : Type} (g : A -> B) (p : A -> bool) (l : list A) :
  List.NoDup (List.map g l) -> List.NoDup (List.map g (List.filter p l)).
Proof.
  induction l as [| x l IH]; simpl; [trivial |].
  intros Hnd. apply List.NoDup_cons_iff in Hnd as [Hx Hnd].
  destruct (p x); simpl; [| now apply IH].
  constructor; [| now apply IH].
  intros Hin. apply Hx. apply List.in_map_iff in Hin as (y & Hy & Hin).
  apply List.filter_In in Hin as [Hin _]. rewrite <- Hy. now apply List.in_map.
Qed.

Section RankingFacts.
Implicit Types (a b c : jsnum) (p q r : AggregatedBet.t).

Lemma jsnum_eqb_eq a b : jsnum_eqb a b = true <-> a = b.
Proof.
  destruct a as [x |], b as [y |]; simpl; try (split; congruence).
  rewrite Z.eqb_eq. split; congruence.
Qed.

Lemma jsnum_lt_irrefl a : ~ jsnum_lt a a.
Proof. destruct a; simpl; [lia | tauto]. Qed.

Lemma jsnum_lt_trans a b c : jsnum_lt a b -> jsnum_lt b c -> jsnum_lt a c.
Proof. destruct a, b, c; simpl; try tauto; lia. Qed.

Lemma jsnum_trichotomy a b : jsnum_lt a b \/ a = b \/ jsnum_lt b a.
Proof.
  destruct a as [x |], b as [y |]; simpl; try tauto.
  destruct (Z.lt_trichotomy x y) as [Hlt | [-> | Hgt]]; tauto.
Qed.

Lemma jsnum_sub_sign_le a b : a <> b -> (jsnum_sub_sign a b <= 0 <-> jsnum_lt a b).
Proof.
  destruct a as [x |], b as [y |]; simpl; intros Hne.
  - assert (x <> y) by congruence. lia.
  - split; [tauto | lia].
  - split; [lia | tauto].
  - congruence.
Qed.

Lemma compareBets_le p q (x y : Z) :
  parseInt (AggregatedBet.number p) = Some x ->
  parseInt (AggregatedBet.number q) = Some y ->
  Viewer.compareBets p q <= 0 <-> keyLe (keyOf p x) (keyOf q y).
Proof.
  intros Hx Hy. unfold Viewer.compareBets, keyLe, keyOf. rewrite Hx, Hy.
  destruct (jsnum_eqb (AggregatedBet.amount p) (AggregatedBet.amount q)) eqn:Ea; simpl.
  - apply jsnum_eqb_eq in Ea.
    destruct (jsnum_eqb (AggregatedBet.userCount p) (AggregatedBet.userCount q)) eqn:Eu;
      simpl.
    + apply jsnum_eqb_eq in Eu. rewrite Ea, Eu.
      pose proof (jsnum_lt_irrefl (AggregatedBet.amount q)).
      pose proof (jsnum_lt_irrefl (AggregatedBet.userCount q)).
      intuition lia.
    + assert (Hne : AggregatedBet.userCount p <> AggregatedBet.userCount q).
      { intros Hc. apply jsnum_eqb_eq in Hc. congruence. }
      rewrite (jsnum_sub_sign_le _ _ Hne), Ea.
      pose proof (jsnum_lt_irrefl (AggregatedBet.amount q)). intuition.
  - assert (Hne : AggregatedBet.amount p <> AggregatedBet.amount q).
    { intros Hc. apply jsnum_eqb_eq in Hc. congruence. }
    rewrite (jsnum_sub_sign_le _ _ Hne). intuition.
Qed.

Lemma keyLe_total (k1 k2 : jsnum * jsnum * Z) : keyLe k1 k2 \/ keyLe k2 k1.
Proof.
  destruct k1 as [[a1 u1] x1], k2 as [[a2 u2] x2]. simpl.
  destruct (jsnum_trichotomy a1 a2) as [H | [-> | H]]; [tauto | | tauto].
  destruct (jsnum_trichotomy u1 u2) as [H | [-> | H]]; [tauto | | tauto].
  destruct (Z.le_ge_cases x1 x2); tauto.
Qed.

Lemma keyLe_trans (k1 k2 k3 : jsnum * jsnum * Z) :
  keyLe k1 k2 -> keyLe k2 k3 -> keyLe k1 k3.
Proof.
  destruct k1 as [[a1 u1] x1], k2 as [[a2 u2] x2], k3 as [[a3 u3] x3]. simpl.
  intros [H12 | [-> [H12 | [-> H12]]]] [H23 | [E [H23 | [E' H23]]]]; subst;
    eauto using jsnum_lt_trans.
  right. split; [reflexivity |]. right. split; [reflexivity | lia].
Qed.

Lemma compareBets_total p q :
  numeric p -> numeric q -> 0 < Viewer.compareBets p q -> Viewer.compareBets q p <= 0.
Proof.
  intros [x Hx] [y Hy] Hgt.
  apply (compareBets_le q p y x Hy Hx).
  destruct (keyLe_total (keyOf p x) (keyOf q y)) as [Hc | Hc]; [| exact Hc].
  apply (compareBets_le p q x y Hx Hy) in Hc. lia.
Qed.

Lemma compareBets_trans p q r :
  numeric p -> numeric q -> numeric r ->
  Viewer.compareBets p q <= 0 -> Viewer.compareBets q r <= 0 ->
  Viewer.compareBets p r <= 0.
Proof.
  intros [x Hx] [y Hy] [z Hz] H1 H2.
  apply (compareBets_le p r x z Hx Hz).
  apply (keyLe_trans _ (keyOf q y)).
  - now apply (compareBets_le p q x y Hx Hy).
  - now apply (compareBets_le q r y z Hy Hz).
Qed.

Lemma compareBets_strict p q :
  numeric p -> numeric q ->
  Viewer.compareBets p q <= 0 ->
  parseInt (AggregatedBet.number p) <> parseInt (AggregatedBet.number q) ->
  rankLt p q.
Proof.
  intros [x Hx] [y Hy] Hle Hne.
  apply (compareBets_le p q x y Hx Hy) in Hle. unfold keyLe, keyOf in Hle.
  unfold rankLt. destruct Hle as [H | [Ea [H | [Eu Hxy]]]]; [tauto | tauto |].
  right. split; [exact Ea |]. right. split; [exact Eu |].
  exists x, y. repeat split; try assumption.
  assert (x <> y) by congruence. lia.
Qed.

End RankingFacts.

Section Candidates.
Variables (viewType : BetType) (aggregatedBets : list AggregatedBet.t).

Lemma allNumbersWithBets_unfold :
  Viewer.allNumbersWithBets viewType aggregatedBets
  = List.filter
      (fun item => BetType_eqb viewType single
                   || negb (String.eqb (AggregatedBet.number item) "00"))
      (List.map (betOrSentinel viewType aggregatedBets)
                (seq 0 (maxNumberOf viewType + 1))).
Proof. destruct viewType; reflexivity. Qed.

Lemma findBet_number (num : string) (item : AggregatedBet.t) :
  Viewer.findBet aggregatedBets num = Some item -> AggregatedBet.number item = num.
Proof.
  unfold Viewer.findBet. intros Hf. apply List.find_some in Hf as [_ Hf].
  now apply String.eqb_eq.
Qed.

Lemma betOrSentinel_number (i : nat) :
  AggregatedBet.number (betOrSentinel viewType aggregatedBets i)
  = paddedNumber viewType i.
Proof.
  unfold betOrSentinel.
  destruct (Viewer.findBet aggregatedBets (paddedNumber viewType i)) eqn:Hf;
    [now apply findBet_number | reflexivity].
Qed.

Lemma paddedNumber_parse :
  List.map (fun i => parseInt (paddedNumber viewType i))
           (seq 0 (maxNumberOf viewType + 1))
  = List.map (fun i => Some (Z.of_nat i)) (seq 0 (maxNumberOf viewType + 1)).
Proof. destruct viewType; vm_compute; reflexivity. Qed.

Lemma paddedNumber_ranked :
  List.map (paddedNumber viewType)
           (seq (match viewType with jodi => 1 | single => 0 end)
                (match viewType with jodi => 99 | single => 10 end))
  = rankedNumbers viewType.
Proof. destruct viewType; vm_compute; reflexivity. Qed.

Lemma betOrSentinel_numeric (i : nat) :
  (i < maxNumberOf viewType + 1)%nat ->
  parseInt (AggregatedBet.number (betOrSentinel viewType aggregatedBets i))
  = Some (Z.of_nat i).
Proof.
  intros Hi. rewrite betOrSentinel_number.
  pose proof paddedNumber_parse as E.
  apply (f_equal (fun l => nth_error l i)) in E.
  rewrite !List.nth_error_map, List.nth_error_seq in E.
  destruct (Nat.ltb_spec i (maxNumberOf viewType + 1)) as [_ | Hc]; [| lia].
  simpl in E. now injection E.
Qed.

Lemma candidates_numeric :
  List.Forall numeric (candidates viewType aggregatedBets).
Proof.
  apply List.Forall_forall. intros item Hin. unfold candidates in Hin.
  apply List.filter_In in Hin as [Hin _].
  rewrite allNumbersWithBets_unfold in Hin.
  apply List.filter_In in Hin as [Hin _].
  apply List.in_map_iff in Hin as (i & <- & Hi). apply List.in_seq in Hi.
  exists (Z.of_nat i). apply betOrSentinel_numeric. lia.
Qed.

Lemma candidates_distinct :
  List.NoDup
    (List.map (fun item => parseInt (AggregatedBet.number item))
              (candidates viewType aggregatedBets)).
Proof.
  unfold candidates. rewrite allNumbersWithBets_unfold.
  do 2 apply NoDup_map_filter.
  rewrite List.map_map.
  rewrite (List.map_ext_in _ (fun i => Some (Z.of_nat i))).
  - apply NoDup_ListNoDup, (bool_decide_unpack _).
    destruct viewType; vm_compute; reflexivity.
  - intros i Hi. apply List.in_seq in Hi. apply betOrSentinel_numeric. lia.
Qed.

(** The candidates are the first bets recorded under the ranked numbers. *)
Lemma candidates_In (item : AggregatedBet.t) :
  In item (candidates viewType aggregatedBets)
  <-> AggregatedBet.amount item <> Inf
      /\ exists num, In num (rankedNumbers viewType)
                     /\ Viewer.findBet aggregatedBets num = Some item.
Proof.
  unfold candidates. rewrite allNumbersWithBets_unfold, !List.filter_In.
  rewrite List.in_map_iff, negb_true_iff, <- paddedNumber_ranked.
  assert (H00 : paddedNumber jodi 0 = "00") by reflexivity.
  split.
  - intros [[(i & <- & Hi) Hkeep] Hamt]. apply List.in_seq in Hi.
    assert (Hne : AggregatedBet.amount (betOrSentinel viewType aggregatedBets i) <> Inf).
    { intros Hc. apply jsnum_eqb_eq in Hc. congruence. }
    split; [exact Hne |].
    exists (paddedNumber viewType i). split.
    + apply List.in_map, List.in_seq.
      rewrite betOrSentinel_number in Hkeep.
      destruct viewType; simpl in *; [| lia].
      destruct i; [| lia]. rewrite H00 in Hkeep. discriminate.
    + unfold betOrSentinel in *.
      destruct (Viewer.findBet aggregatedBets (paddedNumber viewType i));
        [reflexivity | now elim Hne].
  - intros [Hne (num & Hnum & Hf)].
    apply List.in_map_iff in Hnum as (i & <- & Hi). apply List.in_seq in Hi.
    assert (Hitem : betOrSentinel viewType aggregatedBets i = item)
      by (unfold betOrSentinel; now rewrite Hf).
    split; [split |].
    + exists i. split; [exact Hitem |]. apply List.in_seq.
      destruct viewType; simpl in *; lia.
    + rewrite (findBet_number _ _ Hf).
      destruct viewType; simpl; [| reflexivity].
      apply negb_true_iff, String.eqb_neq. intros Hc.
      assert (Hi' : In i (seq 1 99)) by (apply List.in_seq; simpl in Hi; lia).
      assert (Hall : forallb (fun j => negb (String.eqb (paddedNumber jodi j) "00"))
                       (seq 1 99) = true) by (vm_compute; reflexivity).
      rewrite List.forallb_forall in Hall. specialize (Hall i Hi').
      rewrite Hc in Hall. discriminate.
    + destruct (jsnum_eqb (AggregatedBet.amount item) Inf) eqn:E; [| reflexivity].
      apply jsnum_eqb_eq in E. contradiction.
Qed.

Lemma padDashes_length (l : list string) :
  (length l <= 3)%nat -> length (Viewer.padDashes l) = 3%nat.
Proof.
  intros Hl. unfold Viewer.padDashes.
  rewrite List.length_app, List.repeat_length. lia.
Qed.


End Candidates.

(** The worked example of the ranking, and the padding of a single candidate. *)
Example leastBetNumbers_example :
  Viewer.leastBetNumbers jodi exampleBets = ["09"; "07"; "05"].
Proof. reflexivity. Qed.

(** The table row does not read [userCount] off [slot.entries]: it counts
    the user identifiers of the entries again, and an entry of [fetchData]
    carries none, so each number counts one user and the tie between "05"
    and "07" falls to the number. *)
Example aggregateBets_example :
  Viewer.aggregateBets (fun _ => "entry") exampleSlotEntries
  = [ AggregatedBet.mk "05" (Fin 100) (Fin 1);
      AggregatedBet.mk "07" (Fin 100) (Fin 1);
      AggregatedBet.mk "09" (Fin 50) (Fin 1) ]
  /\ Viewer.leastBetNumbers jodi
       (Viewer.aggregateBets (fun _ => "entry") exampleSlotEntries)
     = ["09"; "05"; "07"].
Proof. split; vm_compute; reflexivity. Qed.

Example leastBetNumbers_padding :
  Viewer.leastBetNumbers jodi [AggregatedBet.mk "42" (Fin 10) (Fin 1)]
  = ["42"; "-"; "-"].
Proof. reflexivity. Qed.

(** ** Grouping in the results viewer *)

Section Grouping.
Context `{Host}.
Implicit Types (g : gmap Z (gmap string Cell.t)) (k now : Z) (n : string).

(* The slot key is used as a black box here. *)
#[local] Opaque Viewer.getTimeSlotKey.

Lemma groupEntry_amount now g (entry : Doc) (token : string) k n :
  slotAmount (Viewer.groupEntry now g entry token) k n
  = if lands now k n entry
    then Some (default 0 (slotAmount g k n) + amount (data entry))
    else slotAmount g k n.
Proof.
  unfold Viewer.groupEntry, lands, slotAmount. cbv zeta.
  destruct (Viewer.getTimeSlotKey (createdAt (data entry)) <=? now); simpl;
    [| reflexivity].
  destruct (Z.eqb_spec (Viewer.getTimeSlotKey (createdAt (data entry))) k)
    as [-> | Hk]; simpl.
  - rewrite lookup_insert_eq.
    destruct (String.eqb_spec (number (data entry)) n) as [-> | Hn].
    + rewrite lookup_insert_eq. simpl.
      destruct (g !! k) as [slot |]; simpl.
      * destruct (slot !! n); reflexivity.
      * rewrite lookup_empty. reflexivity.
    + rewrite lookup_insert_ne by exact Hn.
      destruct (g !! k) as [slot |]; simpl; [reflexivity |].
      rewrite lookup_empty. reflexivity.
  - rewrite lookup_insert_ne by exact Hk. reflexivity.
Qed.

Lemma addAmounts_cons (o : option Z) (x : Z) (xs : list Z) :
  addAmounts (Some (default 0 o + x)) xs = addAmounts o (x :: xs).
Proof.
  destruct xs as [| y ys]; simpl; f_equal; lia.
Qed.

Lemma fold_left_amount {A : Type}
    (F : gmap Z (gmap string Cell.t) -> A -> gmap Z (gmap string Cell.t))
    (amt : A -> Z) (p : A -> bool) k n :
  (forall g x,
     slotAmount (F g x) k n
     = if p x then Some (default 0 (slotAmount g k n) + amt x) else slotAmount g k n) ->
  forall (l : list A) g,
    slotAmount (fold_left F l g) k n
    = addAmounts (slotAmount g k n) (List.map amt (List.filter p l)).
Proof.
  intros HF. induction l as [| x l IH]; intros g; simpl; [reflexivity |].
  rewrite IH, HF. destruct (p x); [| reflexivity].
  apply addAmounts_cons.
Qed.

Lemma filter_snd_combine {A B C : Type} (f : B -> C) (p : B -> bool) (l : list B) :
  forall (idx : list A), length idx = length l ->
  List.map (fun ie => f (snd ie)) (List.filter (fun ie => p (snd ie)) (combine idx l))
  = List.map f (List.filter p l).
Proof.
  induction l as [| x l IH]; intros [| i idx] Hlen; simpl in *; try discriminate;
    [reflexivity |].
  destruct (p x); simpl; rewrite IH by lia; reflexivity.
Qed.

Lemma groupEntries_amount now (anon : nat -> string) k n (rawData : list Doc) g :
  slotAmount (Viewer.groupEntries now anon rawData g) k n
  = addAmounts (slotAmount g k n)
      (List.map amountOf (List.filter (lands now k n) rawData)).
Proof.
  unfold Viewer.groupEntries.
  rewrite (fold_left_amount
             (fun acc (ie : nat * Doc) =>
                Viewer.groupEntry now acc (snd ie) (anon (fst ie)))
             (fun ie => amountOf (snd ie)) (fun ie => lands now k n (snd ie)) k n).
  - now rewrite filter_snd_combine by apply List.length_seq.
  - intros g' x. apply groupEntry_amount.
Qed.

Lemma addAmounts_None_Permutation (xs ys : list Z) :
  Permutation xs ys -> addAmounts None xs = addAmounts None ys.
Proof.
  intros Hp. destruct xs as [| x xs], ys as [| y ys]; simpl.
  - reflexivity.
  - apply Permutation_nil in Hp. discriminate.
  - apply Permutation_sym, Permutation_nil in Hp. discriminate.
  - f_equal. f_equal. exact (sumZ_Permutation _ _ Hp).
Qed.

Lemma filter_filter_if {A : Type} (p q r : A -> bool) (c : bool) (l : list A) :
  (forall x, q x = true -> p x = c && r x) ->
  (forall x, q x = false -> r x = false) ->
  List.filter p (List.filter q l) = if c then List.filter r l else [].
Proof.
  intros Ht Hf. induction l as [| x l IH]; simpl; [now destruct c |].
  destruct (q x) eqn:Hq; simpl.
  - rewrite (Ht x Hq), IH. destruct c, (r x); reflexivity.
  - rewrite (Hf x Hq), IH. reflexivity.
Qed.

Lemma lands_query now (viewType : BetType) (dateStr : string) k n (st : Store) :
  List.filter (lands now k n)
    (List.filter (fun doc => BetType_eqb (type (data doc)) viewType
                             && String.eqb (date (data doc)) dateStr) st)
  = if k <=? now then List.filter (contributes viewType dateStr k n) st else [].
Proof.
  apply filter_filter_if; intros doc Hq; unfold lands, contributes; rewrite Hq;
    [| reflexivity].
  generalize (Viewer.getTimeSlotKey (createdAt (data doc))). intros key.
  destruct (Z.eqb_spec key k) as [-> | _];
    destruct (k <=? now), (String.eqb (number (data doc)) n);
    rewrite ?andb_false_r; reflexivity.
Qed.

(** What the viewer holds for a slot and a number: nothing when the slot key
    lies after the query time or no document of the viewed variant and date
    lands there; otherwise the sum of the amounts of all those documents,
    pending or settled. *)
Lemma fetchData_amount now (anon : nat -> string) (viewType : BetType)
    (dateStr : string) (st : Store) k n :
  slotAmount (Viewer.fetchData_groupedSlots now anon viewType dateStr st) k n
  = if k <=? now
    then addAmounts None
           (List.map amountOf (List.filter (contributes viewType dateStr k n) st))
    else None.
Proof.
  unfold Viewer.fetchData_groupedSlots, Viewer.queryBets.
  rewrite groupEntries_amount.
  assert (E0 : slotAmount (∅ : gmap Z (gmap string Cell.t)) k n = None)
    by (unfold slotAmount; now rewrite lookup_empty).
  rewrite E0.
  rewrite (addAmounts_None_Permutation _
             (List.map amountOf
                (List.filter (lands now k n)
                   (List.filter (fun doc => BetType_eqb (type (data doc)) viewType
                                            && String.eqb (date (data doc)) dateStr) st)))).
  - rewrite lands_query. now destruct (k <=? now).
  - apply Permutation_map, filter_Permutation', sortBy_Permutation.
Qed.

End Grouping.

Section GroupingClaim.
Context `{Host}.

Lemma sumZ_app (xs ys : list Z) : sumZ (xs ++ ys) = sumZ xs + sumZ ys.
Proof. induction xs as [| x xs IH]; simpl; lia. Qed.

Lemma addAmounts_nonempty (xs : list Z) :
  xs <> [] -> addAmounts None xs = Some (sumZ xs).
Proof. destruct xs; [congruence | reflexivity]. Qed.

Lemma contributes_self (doc : Doc) :
  contributes (type (data doc)) (date (data doc))
    (Viewer.getTimeSlotKey (createdAt (data doc))) (number (data doc)) doc = true.
Proof.
  unfold contributes.
  rewrite Z.eqb_refl, !String.eqb_refl, (proj2 (BetType_eqb_eq _ _) eq_refl).
  reflexivity.
Qed.

Lemma contributes_settledCopy (viewType : BetType) (dateStr : string) (k : Z)
    (n : string) (d c : Doc) (t : Z) :
  data c = Admin.settledCopy (data d) t ->
  contributes viewType dateStr k n c = contributes viewType dateStr k n d.
Proof. intros Hc. unfold contributes. rewrite Hc. reflexivity. Qed.

(** C10. In the viewer a slot holds, for a number, the sum of the amounts of
    all documents of the viewed variant and date whose slot key it is, and
    it holds something for an entry exactly when the entry's slot key is not
    after the query time; the pending flag is never consulted.  So with a
    pending original [d] and its settled copy [c] both in the store, the
    slot of [d] holds the amount of [d] twice, next to what the other
    documents contribute. *)
Theorem fetchData_counts_pending_and_settled (now : Z) (anon : nat -> string)
    (viewType : BetType) (dateStr : string) (s1 s2 s3 : Store) (d c : Doc) (t : Z) :
  type (data d) = viewType ->
  date (data d) = dateStr ->
  pending (data d) = Some true ->
  data c = Admin.settledCopy (data d) t ->
  Viewer.getTimeSlotKey (createdAt (data d)) <= now ->
  (forall (st : Store) (k : Z) (n : string),
     slotAmount (Viewer.fetchData_groupedSlots now anon viewType dateStr st) k n
     = if k <=? now
       then addAmounts None
              (List.map amountOf (List.filter (contributes viewType dateStr k n) st))
       else None)
  /\ (forall (st : Store) (e : Doc),
        In e st -> type (data e) = viewType -> date (data e) = dateStr ->
        (is_Some (slotAmount (Viewer.fetchData_groupedSlots now anon viewType dateStr st)
                    (Viewer.getTimeSlotKey (createdAt (data e))) (number (data e)))
         <-> Viewer.getTimeSlotKey (createdAt (data e)) <= now))
  /\ pending (data c) = Some false
  /\ slotAmount
       (Viewer.fetchData_groupedSlots now anon viewType dateStr
          (s1 ++ d :: s2 ++ c :: s3))
       (Viewer.getTimeSlotKey (createdAt (data d))) (number (data d))
     = Some (2 * amount (data d)
             + sumZ (List.map amountOf
                       (List.filter
                          (contributes viewType dateStr
                             (Viewer.getTimeSlotKey (createdAt (data d)))
                             (number (data d)))
                          (s1 ++ s2 ++ s3)))).
Proof.
  intros Ht Hd Hp Hc Hk.
  split; [intros st k n; apply fetchData_amount |].
  split; [| split].
  - intros st e Hin <- <-. rewrite fetchData_amount.
    generalize (contributes_self e).
    generalize (Viewer.getTimeSlotKey (createdAt (data e))). intros key Hself.
    destruct (Z.leb_spec key now) as [Hle | Hgt].
    + rewrite addAmounts_nonempty.
      * split; [intros _; exact Hle | intros _; eauto].
      * intros Hnil. apply List.map_eq_nil in Hnil.
        assert (Hin' : In e (List.filter
                        (contributes (type (data e)) (date (data e)) key
                           (number (data e))) st))
          by (apply List.filter_In; split; assumption).
        rewrite Hnil in Hin'. contradiction.
    + split; [intros [x Hx]; discriminate | lia].
  - rewrite Hc. reflexivity.
  - rewrite fetchData_amount.
    assert (Hself : contributes viewType dateStr
                      (Viewer.getTimeSlotKey (createdAt (data d)))
                      (number (data d)) d = true)
      by (rewrite <- Ht, <- Hd; apply contributes_self).
    pose proof (contributes_settledCopy viewType dateStr
                  (Viewer.getTimeSlotKey (createdAt (data d)))
                  (number (data d)) d c t Hc) as Hcopy.
    rewrite Hself in Hcopy.
    assert (Hamt : amountOf c = amount (data d))
      by (unfold amountOf; rewrite Hc; reflexivity).
    revert Hk Hself Hcopy.
    generalize (Viewer.getTimeSlotKey (createdAt (data d))). intros key Hk Hself Hcopy.
    apply Z.leb_le in Hk. rewrite Hk.
    generalize dependent (contributes viewType dateStr key (number (data d))).
    intros p Hself Hcopy.
    rewrite !List.filter_app. cbn [List.filter]. rewrite Hself.
    rewrite List.filter_app. cbn [List.filter]. rewrite Hcopy.
    rewrite addAmounts_nonempty.
    + f_equal. rewrite !List.map_app, !sumZ_app. cbn [List.map sumZ fold_right].
      rewrite !List.map_app, !sumZ_app. cbn [List.map sumZ fold_right].
      rewrite Hamt. unfold sumZ, amountOf. lia.
    + intros Hnil. apply List.map_eq_nil, List.app_eq_nil in Hnil as [_ Hnil].
      discriminate.
Qed.

End GroupingClaim.

Lemma fetchData_counts_pending_and_settled_witness :
  type (data pendingDoc) = jodi
  /\ date (data pendingDoc) = "2025-05-01"
  /\ pending (data pendingDoc) = Some true
  /\ data settledDoc = Admin.settledCopy (data pendingDoc) (t_12_15 + 30000)
  /\ @Viewer.getTimeSlotKey IST (createdAt (data pendingDoc)) <= t_12_30
  /\ slotAmount
       (@Viewer.fetchData_groupedSlots IST t_12_30 (fun _ => "anonymous") jodi
          "2025-05-01" ([] ++ pendingDoc :: [] ++ settledDoc :: []))
       (@Viewer.getTimeSlotKey IST (createdAt (data pendingDoc)))
       (number (data pendingDoc))
     = Some (2 * amount (data pendingDoc)
             + sumZ (List.map amountOf
                       (List.filter
                          (@contributes IST jodi "2025-05-01"
                             (@Viewer.getTimeSlotKey IST (createdAt (data pendingDoc)))
                             (number (data pendingDoc)))
                          ([] ++ [] ++ [])))).
Proof.
  assert (H1 : type (data pendingDoc) = jodi) by reflexivity.
  assert (H2 : date (data pendingDoc) = "2025-05-01") by reflexivity.
  assert (H3 : pending (data pendingDoc) = Some true) by reflexivity.
  assert (H4 : data settledDoc = Admin.settledCopy (data pendingDoc) (t_12_15 + 30000))
    by reflexivity.
  assert (H5 : @Viewer.getTimeSlotKey IST (createdAt (data pendingDoc)) <= t_12_30)
    by (vm_compute; discriminate).
  repeat (split; [assumption |]).
  exact (proj2 (proj2 (proj2
           (fetchData_counts_pending_and_settled (H := IST) t_12_30
              (fun _ => "anonymous") jodi "2025-05-01" [] [] [] pendingDoc settledDoc
              (t_12_15 + 30000) H1 H2 H3 H4 H5)))).
Defined.

(** The pending bet of 50 and its settled copy show as 100 in the 12:15 slot. *)
Example fetchData_double_count :
  slotAmount
    (@Viewer.fetchData_groupedSlots IST t_12_30 (fun _ => "anonymous") jodi
       "2025-05-01" [pendingDoc; settledDoc])
    t_12_15 "42"
  = Some 100.
Proof. vm_compute. reflexivity. Qed.
